(** * colord: the IT8 sample exchange documents of cd-it8.c

    A shallow embedding of libcolord's [CdIt8] object (the in-memory
    document, its loader and its saver) and the properties of the
    specification that were checked against it.

    Modelling decisions, valid for the whole file:
    - a [gdouble] is an exact rational ([Qc], canonical fractions, so that
      equality is Leibniz).  Rounding, infinities and NaN are outside the
      model; the one division of the source whose divisor may be zero is
      guarded and reported as [Wrong NonFinite];
    - a C float literal is the rational it denotes: [100.0f] and [1.0f]
      are exact, [0.01f] is 10737418 / 2^30;
    - a [GPtrArray] is a list; an entry that may be the NULL pointer is an
      [option];
    - the lcms2 IT8 handle is a record of sheet type, keyword properties
      and numeric cells; its conversion to and from the bytes of a file is
      taken to be lossless;
    - a function that mutates the object and returns a [gboolean] returns
      the new object together with a [result]. *)

From Stdlib Require Import QArith Qcanon Qround Qabs ZArith Lia Lqa.
From Stdlib Require Import String Ascii List DecimalString DecimalN.
From stdpp Require Import base numbers gmap strings list.

Local Open Scope Qc_scope.

(** ** Numbers *)

Module GDouble.

(** The type of the numbers: [gdouble] stands for [Qc]. *)
Abbreviation gdouble := Qc.

Definition of_Z (z : Z) : gdouble := Q2Qc (inject_Z z).
Definition of_nat (n : nat) : gdouble := of_Z (Z.of_nat n).

Definition zero : gdouble := of_Z 0.
Definition one : gdouble := of_Z 1.
Definition hundred : gdouble := of_Z 100.

(** The literal [0.01f]: the binary32 number nearest to 1/100, which is
    10737418 * 2^-30 (a little below 1/100). *)
Definition float_0_01 : gdouble := Q2Qc (10737418 # 1073741824).

Definition ltb (a b : gdouble) : bool := bool_decide (a < b).
Definition eqb (a b : gdouble) : bool := bool_decide (a = b).

(** GLib's macro [ABS(a)  (((a) < 0) ? -(a) : (a))]. *)
Definition ABS (a : gdouble) : gdouble := if ltb a zero then - a else a.

(** Conversion of a double to a [guint]: the fraction is discarded
    (truncation towards zero); C leaves the conversion undefined when the
    truncated value is not a 32-bit unsigned number. *)
Definition truncate (a : gdouble) : Z :=
  if ltb a zero then Qceiling (this a) else Qfloor (this a).

Definition to_guint (a : gdouble) : option nat :=
  let t := truncate a in
  if bool_decide (0 <= t < 4294967296)%Z then Some (Z.to_nat t) else None.

End GDouble.
Export GDouble.

(** ** Results *)

(** The messages of [g_set_error] in cd-it8.c (domain 1, code 0), with the
    value that is printed into them. *)
Inductive GError : Type :=
  | FileNotLoaded
      (* g_file_load_contents failed *)
  | CannotOpen
      (* "Cannot open %s" *)
  | InvalidSheetType (tag : string)
      (* "Invalid sheet type: %s" *)
  | InvalidDataFormat (rep : option string)
      (* "Invalid data format: %s" *)
  | InvalidCcmxDataFormat (rep : option string)
      (* "Invalid CCMX data format: %s" *)
  | LuminanceFormatInvalid (text : option string)
      (* "LUMINANCE_XYZ_CDM2 format invalid: %s" *)
  | NoWhiteSamples.
      (* "Failed to find any white samples" *)

(** The taxonomy the specification gives to these failures. *)
Inductive ErrorKind : Type :=
  | IoError
  | Malformed
  | UnknownVariant
  | InvalidColorRepresentation
  | InvalidLuminance
  | NoWhiteSample.

Definition error_kind (e : GError) : ErrorKind :=
  match e with
  | FileNotLoaded => IoError
  | CannotOpen => Malformed
  | InvalidSheetType _ => UnknownVariant
  | InvalidDataFormat _ => InvalidColorRepresentation
  | InvalidCcmxDataFormat _ => InvalidColorRepresentation
  | LuminanceFormatInvalid _ => InvalidLuminance
  | NoWhiteSamples => NoWhiteSample
  end.

(** Executions that leave the model. *)
Inductive wrong : Type :=
  | NullPointer     (* a NULL entry of an array is dereferenced *)
  | OutOfBounds     (* g_ptr_array_index past the length of the array *)
  | NonFinite       (* division by zero: the quotient is not a rational *)
  | BadConversion.  (* double to guint, out of range *)

(** [Ok a]: the function returned TRUE (with value [a]);
    [Fail e]: it returned FALSE, [e] being the error it set, if it set one;
    [Wrong w]: the execution left the model. *)
Inductive result (A : Type) : Type :=
  | Ok (a : A)
  | Fail (e : option GError)
  | Wrong (w : wrong).
Arguments Ok {A} a.
Arguments Fail {A} e.
Arguments Wrong {A} w.

(** Sequencing: the first FALSE or the first departure from the model ends
    the function ([x ← r; k] is stdpp's notation for [mbind]). *)
#[global] Instance result_ret : MRet result := fun A a => Ok a.
#[global] Instance result_bind : MBind result := fun A B k r =>
  match r with
  | Ok a => k a
  | Fail e => Fail e
  | Wrong w => Wrong w
  end.

Definition is_ok {A : Type} (r : result A) : bool :=
  match r with Ok _ => true | _ => false end.

(** ** Colours and matrices (cd-color.h, cd-math.h) *)

Record CdColorRGB : Type := mkRGB { rgb_R : gdouble; rgb_G : gdouble; rgb_B : gdouble }.
Record CdColorXYZ : Type := mkXYZ { xyz_X : gdouble; xyz_Y : gdouble; xyz_Z : gdouble }.

Record CdMat3x3 : Type := mkMat {
  m00 : gdouble; m01 : gdouble; m02 : gdouble;
  m10 : gdouble; m11 : gdouble; m12 : gdouble;
  m20 : gdouble; m21 : gdouble; m22 : gdouble }.

(** [cd_color_set_rgb (rgb, 0.0f, 0.0f, 0.0f)] and its XYZ sibling. *)
Definition black_rgb : CdColorRGB := mkRGB zero zero zero.
Definition black_xyz : CdColorXYZ := mkXYZ zero zero zero.

(** [cd_color_clear_xyz] and [cd_mat33_clear]. *)
Definition cd_color_clear_xyz : CdColorXYZ := mkXYZ zero zero zero.
Definition cd_mat33_clear : CdMat3x3 :=
  mkMat zero zero zero zero zero zero zero zero zero.

(** Modelled from the spec: [cd_color_xyz_dup] of cd-color.c, which is not
    among the sources.  The copy of a colour is that colour.  Nothing is
    said of the copy of an absent colour: the model invents none and takes
    the copy of NULL to be NULL, which [cd_it8_add_data] then stores. *)
Definition cd_color_xyz_dup (src : option CdColorXYZ) : option CdColorXYZ := src.

(** ** GLib and libc *)

(** [g_strcmp0 (a, b) == 0] for a possibly NULL [a] and a literal [b]. *)
Definition g_strcmp0_eq (a : option string) (b : string) : bool :=
  bool_decide (a = Some b).

(** [g_str_has_prefix (str, prefix)]. *)
Definition g_str_has_prefix (str pre : string) : bool := String.prefix pre str.

(** [g_strsplit (text, " ", -1)]: the pieces between the spaces, every
    space being a delimiter; the empty string has no piece, and NULL gives
    the NULL vector, whose [g_strv_length] is 0. *)
Fixpoint split_spaces (s : string) : list string :=
  match s with
  | EmptyString => [EmptyString]
  | String c s' =>
      if Ascii.eqb c " "%char then EmptyString :: split_spaces s'
      else match split_spaces s' with
           | tok :: toks => String c tok :: toks
           | [] => [String c EmptyString]
           end
  end.

Definition g_strsplit_space (text : option string) : list string :=
  match text with
  | None => []
  | Some EmptyString => []
  | Some s => split_spaces s
  end.

Definition g_strv_length (v : list string) : nat := List.length v.

(** The decimal digits at the head of a string, and the rest. *)
Definition digit_of (c : ascii) : option (Decimal.uint -> Decimal.uint) :=
  match c with
  | "0"%char => Some Decimal.D0 | "1"%char => Some Decimal.D1
  | "2"%char => Some Decimal.D2 | "3"%char => Some Decimal.D3
  | "4"%char => Some Decimal.D4 | "5"%char => Some Decimal.D5
  | "6"%char => Some Decimal.D6 | "7"%char => Some Decimal.D7
  | "8"%char => Some Decimal.D8 | "9"%char => Some Decimal.D9
  | _ => None
  end.

Fixpoint take_digits (s : string) : Decimal.uint * string :=
  match s with
  | EmptyString => (Decimal.Nil, EmptyString)
  | String c s' =>
      match digit_of c with
      | Some d => let '(ds, rest) := take_digits s' in (d ds, rest)
      | None => (Decimal.Nil, s)
      end
  end.

Definition is_space (c : ascii) : bool :=
  match c with
  | " "%char | "009"%char | "010"%char | "011"%char | "012"%char | "013"%char => true
  | _ => false
  end.

Fixpoint skip_spaces (s : string) : string :=
  match s with
  | String c s' => if is_space c then skip_spaces s' else s
  | EmptyString => EmptyString
  end.

Definition take_sign (s : string) : bool * string :=
  match s with
  | String "-"%char s' => (true, s')
  | String "+"%char s' => (false, s')
  | _ => (false, s)
  end.

(** The exponent part [e[+-]digits]; it counts only when it has a digit. *)
Definition take_exponent (s : string) : Z :=
  match s with
  | String c s' =>
      if (Ascii.eqb c "e" || Ascii.eqb c "E")%bool then
        let '(neg, s'') := take_sign s' in
        match take_digits s'' with
        | (Decimal.Nil, _) => 0%Z
        | (ds, _) => let e := Z.of_N (N.of_uint ds) in if neg then (- e)%Z else e
        end
      else 0%Z
  | EmptyString => 0%Z
  end.

(** [mant * 10^e] as a fraction. *)
Definition scale10 (mant : Z) (e : Z) : Q :=
  match e with
  | Zneg p => mant # (10 ^ p)%positive
  | _ => inject_Z (mant * 10 ^ e)
  end.

(** libc's [atof] on decimal input: leading white space, a sign, digits
    with an optional point, an optional exponent; what follows is ignored,
    and a string that does not start with a number reads as 0.  There is
    no error to report.  (Hexadecimal input, "inf" and "nan" are not
    modelled.) *)
Definition atof (s : string) : gdouble :=
  let '(neg, s1) := take_sign (skip_spaces s) in
  let '(ip, s2) := take_digits s1 in
  let '(fp, s3) :=
    match s2 with
    | String "."%char r => take_digits r
    | _ => (Decimal.Nil, s2)
    end in
  match ip, fp with
  | Decimal.Nil, Decimal.Nil => zero
  | _, _ =>
      let k := Decimal.nb_digits fp in
      let mant := (Z.of_N (N.of_uint ip) * 10 ^ Z.of_nat k + Z.of_N (N.of_uint fp))%Z in
      let v := scale10 mant (take_exponent s3 - Z.of_nat k) in
      Q2Qc (if neg then Qopp v else v)
  end.

(** An unsigned integer in decimal. *)
Definition string_of_N (n : N) : string := NilEmpty.string_of_uint (N.to_uint n).

(** Rounding of a non-negative fraction to the nearest integer, ties to
    even (printf rounds the exact value this way). *)
Definition round_half_even (q : Q) : Z :=
  let f := Qfloor q in
  match Qcompare (q - inject_Z f) (1 # 2) with
  | Lt => f
  | Gt => (f + 1)%Z
  | Eq => if Z.even f then f else (f + 1)%Z
  end.

Definition string_tail (s : string) : string :=
  match s with String _ r => r | EmptyString => EmptyString end.

(** printf's ["%f"]: sign, integer part, point, six decimals. *)
Definition printf_f (v : gdouble) : string :=
  let n := Z.to_N (round_half_even (Qabs (this v) * inject_Z 1000000)) in
  ((if ltb v zero then "-" else "") ++
   string_of_N (n / 1000000) ++ "." ++
   string_tail (string_of_N (1000000 + n mod 1000000)))%string.

(** [g_strdup_printf ("%f %f %f", x, y, z)]. *)
Definition printf_f3 (x y z : gdouble) : string :=
  (printf_f x ++ " " ++ printf_f y ++ " " ++ printf_f z)%string.

(** ** The lcms2 IT8 handle *)

(** What cd-it8.c uses of a [cmsHANDLE]: the sheet type, the keyword
    properties (text), the names of the columns and the numeric cells,
    addressed by (row, column). *)
Record cmsHANDLE : Type := mkHandle {
  SheetType : string;
  Properties : gmap string string;
  DataFormat : gmap nat string;
  Data : gmap (nat * nat) gdouble }.

(** [cmsIT8Alloc]: an empty sheet of the default type. *)
Definition cmsIT8Alloc : cmsHANDLE := mkHandle "CGATS.17" ∅ ∅ ∅.

Definition cmsIT8SetSheetType (h : cmsHANDLE) (tag : string) : cmsHANDLE :=
  mkHandle tag (Properties h) (DataFormat h) (Data h).

Definition cmsIT8GetSheetType (h : cmsHANDLE) : string := SheetType h.

Definition cmsIT8SetPropertyStr (h : cmsHANDLE) (key val : string) : cmsHANDLE :=
  mkHandle (SheetType h) (<[key := val]> (Properties h)) (DataFormat h) (Data h).

(** [cmsIT8SetPropertyDbl]: cd-it8.c only passes integers (7, 3 and the
    length of an array, a [guint]); lcms2 prints the value with "%.10g",
    which for an integer below 10^10 is its decimal digits. *)
Definition cmsIT8SetPropertyDbl (h : cmsHANDLE) (key : string) (val : nat) : cmsHANDLE :=
  cmsIT8SetPropertyStr h key (string_of_N (N.of_nat val)).

Definition cmsIT8GetProperty (h : cmsHANDLE) (key : string) : option string :=
  Properties h !! key.

(** [cmsIT8GetPropertyDbl]: the number read from the text of the property,
    0.0 when the property is absent. *)
Definition cmsIT8GetPropertyDbl (h : cmsHANDLE) (key : string) : gdouble :=
  match cmsIT8GetProperty h key with
  | Some v => atof v
  | None => zero
  end.

Definition cmsIT8SetDataFormat (h : cmsHANDLE) (col : nat) (name : string) : cmsHANDLE :=
  mkHandle (SheetType h) (Properties h) (<[col := name]> (DataFormat h)) (Data h).

Definition cmsIT8SetDataRowColDbl (h : cmsHANDLE) (row col : nat) (val : gdouble)
  : cmsHANDLE :=
  mkHandle (SheetType h) (Properties h) (DataFormat h) (<[(row, col) := val]> (Data h)).

(** [cmsIT8GetDataRowColDbl]: 0.0 for a cell that is not there. *)
Definition cmsIT8GetDataRowColDbl (h : cmsHANDLE) (row col : nat) : gdouble :=
  default zero (Data h !! (row, col)).

(** A file as [cd_it8_load] sees it: [g_file_load_contents] fails
    ([Unreadable]), or gives bytes that [cmsIT8LoadFromMem] rejects
    ([NotIt8]) or parses into a handle ([It8Text]).  [cd_it8_save] writes
    the bytes of a handle. *)
Inductive GFile : Type :=
  | Unreadable
  | NotIt8
  | It8Text (h : cmsHANDLE).

(** ** The document (struct _CdIt8Private) *)

(** Modelled from the spec: the enumeration [CdIt8Kind] of cd-it8.h, which
    is not among the sources.  The three variants are CalibrationTarget1
    (TI1), CalibrationTarget3 (TI3) and CorrectionMatrix (CCMX);
    [CD_IT8_KIND_UNKNOWN] is the value 0 that the "kind" property of
    [cd_it8_class_init] has by default. *)
Inductive CdIt8Kind : Type :=
  | CD_IT8_KIND_UNKNOWN
  | CD_IT8_KIND_TI1
  | CD_IT8_KIND_TI3
  | CD_IT8_KIND_CCMX.

#[global] Instance CdIt8Kind_eq_dec : EqDecision CdIt8Kind.
Proof. solve_decision. Defined.

(** [array_rgb] never holds NULL (its entries come from
    [cd_color_rgb_dup] of a non-NULL colour or from [cd_color_rgb_new]);
    [array_xyz] may: [cd_it8_add_data] stores [cd_color_xyz_dup (xyz)]
    without looking at [xyz]. *)
Record CdIt8Private : Type := mkIt8 {
  kind : CdIt8Kind;
  matrix : CdMat3x3;
  normalized : bool;
  spectral : bool;
  instrument : option string;
  reference : option string;
  originator : option string;
  array_rgb : list CdColorRGB;
  array_xyz : list (option CdColorXYZ) }.

(** [cd_it8_new]: the private structure is zeroed, [cd_it8_init] makes the
    two arrays. *)
Definition cd_it8_new : CdIt8Private :=
  mkIt8 CD_IT8_KIND_UNKNOWN cd_mat33_clear false false None None None [] [].

Definition cd_it8_set_kind (it8 : CdIt8Private) (k : CdIt8Kind) : CdIt8Private :=
  mkIt8 k (matrix it8) (normalized it8) (spectral it8) (instrument it8)
        (reference it8) (originator it8) (array_rgb it8) (array_xyz it8).

(** [cd_it8_new_with_kind]. *)
Definition cd_it8_new_with_kind (k : CdIt8Kind) : CdIt8Private :=
  cd_it8_set_kind cd_it8_new k.

Definition cd_it8_set_matrix (it8 : CdIt8Private) (m : CdMat3x3) : CdIt8Private :=
  mkIt8 (kind it8) m (normalized it8) (spectral it8) (instrument it8)
        (reference it8) (originator it8) (array_rgb it8) (array_xyz it8).

Definition cd_it8_set_normalized (it8 : CdIt8Private) (b : bool) : CdIt8Private :=
  mkIt8 (kind it8) (matrix it8) b (spectral it8) (instrument it8)
        (reference it8) (originator it8) (array_rgb it8) (array_xyz it8).

Definition cd_it8_set_spectral (it8 : CdIt8Private) (b : bool) : CdIt8Private :=
  mkIt8 (kind it8) (matrix it8) (normalized it8) b (instrument it8)
        (reference it8) (originator it8) (array_rgb it8) (array_xyz it8).

Definition cd_it8_set_instrument (it8 : CdIt8Private) (s : option string) : CdIt8Private :=
  mkIt8 (kind it8) (matrix it8) (normalized it8) (spectral it8) s
        (reference it8) (originator it8) (array_rgb it8) (array_xyz it8).

Definition cd_it8_set_reference (it8 : CdIt8Private) (s : option string) : CdIt8Private :=
  mkIt8 (kind it8) (matrix it8) (normalized it8) (spectral it8) (instrument it8)
        s (originator it8) (array_rgb it8) (array_xyz it8).

Definition cd_it8_set_originator (it8 : CdIt8Private) (s : option string) : CdIt8Private :=
  mkIt8 (kind it8) (matrix it8) (normalized it8) (spectral it8) (instrument it8)
        (reference it8) s (array_rgb it8) (array_xyz it8).

(** [g_ptr_array_add] on each array, [g_ptr_array_set_size (.., 0)] on
    both. *)
Definition add_rgb (it8 : CdIt8Private) (c : CdColorRGB) : CdIt8Private :=
  mkIt8 (kind it8) (matrix it8) (normalized it8) (spectral it8) (instrument it8)
        (reference it8) (originator it8) (array_rgb it8 ++ [c]) (array_xyz it8).

Definition add_xyz (it8 : CdIt8Private) (c : option CdColorXYZ) : CdIt8Private :=
  mkIt8 (kind it8) (matrix it8) (normalized it8) (spectral it8) (instrument it8)
        (reference it8) (originator it8) (array_rgb it8) (array_xyz it8 ++ [c]).

Definition clear_arrays (it8 : CdIt8Private) : CdIt8Private :=
  mkIt8 (kind it8) (matrix it8) (normalized it8) (spectral it8) (instrument it8)
        (reference it8) (originator it8) [] [].

(** [cd_it8_add_data]: both tests look at [rgb]. *)
Definition cd_it8_add_data (it8 : CdIt8Private)
    (rgb : option CdColorRGB) (xyz : option CdColorXYZ) : CdIt8Private :=
  (* add RGB *)
  let rgb_tmp :=
    match rgb with
    | Some c => c            (* cd_color_rgb_dup (rgb) *)
    | None => black_rgb
    end in
  let it8 := add_rgb it8 rgb_tmp in
  (* add XYZ *)
  let xyz_tmp :=
    match rgb with
    | Some _ => cd_color_xyz_dup xyz
    | None => Some black_xyz
    end in
  add_xyz it8 xyz_tmp.

(** [cd_it8_get_data_size]. *)
Definition cd_it8_get_data_size (it8 : CdIt8Private) : nat :=
  List.length (array_xyz it8).

(** [cd_it8_get_data_item (it8, idx, rgb, xyz)].  The out-parameters are
    modelled by [want_rgb] and [want_xyz] (is the pointer non-NULL?) and by
    the colours written through them.  [cd_color_copy_xyz] of a NULL source
    writes nothing. *)
Definition cd_it8_get_data_item (it8 : CdIt8Private) (idx : nat)
    (want_rgb want_xyz : bool)
  : result (option CdColorRGB * option CdColorXYZ) :=
  if bool_decide (List.length (array_xyz it8) < idx)%nat then Fail None
  else
    out_rgb ←
      (if want_rgb then
         match array_rgb it8 !! idx with
         | Some c => Ok (Some c)
         | None => Wrong OutOfBounds
         end
       else Ok None);
    out_xyz ←
      (if want_xyz then
         match array_xyz it8 !! idx with
         | Some c => Ok c
         | None => Wrong OutOfBounds
         end
       else Ok None);
    Ok (out_rgb, out_xyz).

(** ** The loader *)

(** [cd_it8_parse_luminance]. *)
Definition cd_it8_parse_luminance (text : option string) : result CdColorXYZ :=
  let split := g_strsplit_space text in
  if bool_decide (g_strv_length split ≠ 3%nat) then
    Fail (Some (LuminanceFormatInvalid text))
  else
    Ok (mkXYZ (atof (nth 0 split EmptyString))
              (atof (nth 1 split EmptyString))
              (atof (nth 2 split EmptyString))).

(** The loop of [cd_it8_load_ti1_ti3], [i] being the row and [count] the
    number of rows still to read.  [luminance] is [Some] of the parsed
    triple when [scaled_to_y100] is TRUE. *)
Fixpoint load_rows (h : cmsHANDLE) (luminance : option CdColorXYZ)
    (i count : nat) (it8 : CdIt8Private) : CdIt8Private :=
  match count with
  | O => it8
  | S count' =>
      let rgb := mkRGB (cmsIT8GetDataRowColDbl h i 1)
                       (cmsIT8GetDataRowColDbl h i 2)
                       (cmsIT8GetDataRowColDbl h i 3) in
      let rgb :=
        match luminance with
        | Some _ => mkRGB (rgb_R rgb / hundred) (rgb_G rgb / hundred) (rgb_B rgb / hundred)
        | None => rgb
        end in
      let it8 := add_rgb it8 rgb in
      let xyz := mkXYZ (cmsIT8GetDataRowColDbl h i 4)
                       (cmsIT8GetDataRowColDbl h i 5)
                       (cmsIT8GetDataRowColDbl h i 6) in
      let xyz :=
        match luminance with
        | Some l => mkXYZ (xyz_X xyz / hundred * xyz_X l)
                          (xyz_Y xyz / hundred * xyz_Y l)
                          (xyz_Z xyz / hundred * xyz_Z l)
        | None => xyz
        end in
      let it8 := add_xyz it8 (Some xyz) in
      load_rows h luminance (S i) count' it8
  end.

(** [cd_it8_load_ti1_ti3]. *)
Definition cd_it8_load_ti1_ti3 (it8 : CdIt8Private) (h : cmsHANDLE)
  : CdIt8Private * result unit :=
  let tmp := cmsIT8GetProperty h "COLOR_REP" in
  if negb (g_strcmp0_eq tmp "RGB_XYZ") then
    (it8, Fail (Some (InvalidDataFormat tmp)))
  else
    (* if normalized, then scale back up *)
    let tmp := cmsIT8GetProperty h "NORMALIZED_TO_Y_100" in
    let scaled : result (option CdColorXYZ) :=
      if g_strcmp0_eq tmp "YES" then
        l ← cd_it8_parse_luminance (cmsIT8GetProperty h "LUMINANCE_XYZ_CDM2");
        Ok (Some l)
      else Ok None in
    match scaled with
    | Fail e => (it8, Fail e)
    | Wrong w => (it8, Wrong w)
    | Ok luminance =>
        (* set spectral flag *)
        let tmp := cmsIT8GetProperty h "INSTRUMENT_TYPE_SPECTRAL" in
        let it8 := cd_it8_set_spectral it8 (g_strcmp0_eq tmp "YES") in
        (* set instrument *)
        let it8 := cd_it8_set_instrument it8 (cmsIT8GetProperty h "TARGET_INSTRUMENT") in
        (* copy out data entries *)
        match to_guint (cmsIT8GetPropertyDbl h "NUMBER_OF_SETS") with
        | None => (it8, Wrong BadConversion)
        | Some number_of_sets => (load_rows h luminance 0 number_of_sets it8, Ok tt)
        end
    end.

(** [cd_it8_load_ccmx]. *)
Definition cd_it8_load_ccmx (it8 : CdIt8Private) (h : cmsHANDLE)
  : CdIt8Private * result unit :=
  (* check color format *)
  let tmp := cmsIT8GetProperty h "COLOR_REP" in
  if negb (g_strcmp0_eq tmp "XYZ") then
    (it8, Fail (Some (InvalidCcmxDataFormat tmp)))
  else
    (* set instrument *)
    let it8 := cd_it8_set_instrument it8 (cmsIT8GetProperty h "INSTRUMENT") in
    (* just load the matrix *)
    let m := mkMat (cmsIT8GetDataRowColDbl h 0 0) (cmsIT8GetDataRowColDbl h 0 1)
                   (cmsIT8GetDataRowColDbl h 0 2) (cmsIT8GetDataRowColDbl h 1 0)
                   (cmsIT8GetDataRowColDbl h 1 1) (cmsIT8GetDataRowColDbl h 1 2)
                   (cmsIT8GetDataRowColDbl h 2 0) (cmsIT8GetDataRowColDbl h 2 1)
                   (cmsIT8GetDataRowColDbl h 2 2) in
    (cd_it8_set_matrix it8 m, Ok tt).

(** The sheet types that [cd_it8_load] knows, tested in this order. *)
Definition kind_of_sheet_type (tmp : string) : option CdIt8Kind :=
  if g_str_has_prefix tmp "CTI1" then Some CD_IT8_KIND_TI1
  else if g_str_has_prefix tmp "CTI3" then Some CD_IT8_KIND_TI3
  else if g_str_has_prefix tmp "CCMX" then Some CD_IT8_KIND_CCMX
  else None.

Definition is_ti1_ti3 (k : CdIt8Kind) : bool :=
  bool_decide (k = CD_IT8_KIND_TI1) || bool_decide (k = CD_IT8_KIND_TI3).

(** [cd_it8_load]. *)
Definition cd_it8_load (it8 : CdIt8Private) (file : GFile)
  : CdIt8Private * result unit :=
  (* clear old data *)
  let it8 := clear_arrays it8 in
  let it8 := cd_it8_set_matrix it8 cd_mat33_clear in
  match file with
  | Unreadable => (it8, Fail (Some FileNotLoaded))
  | NotIt8 => (it8, Fail (Some CannotOpen))
  | It8Text h =>
      (* get sheet type *)
      let tmp := cmsIT8GetSheetType h in
      match kind_of_sheet_type tmp with
      | None => (it8, Fail (Some (InvalidSheetType tmp)))
      | Some k =>
          let it8 := cd_it8_set_kind it8 k in
          (* get ti1 and ti3 specific data *)
          let '(it8, ret) :=
            if is_ti1_ti3 (kind it8) then cd_it8_load_ti1_ti3 it8 h
            else if bool_decide (kind it8 = CD_IT8_KIND_CCMX) then cd_it8_load_ccmx it8 h
            else (it8, Ok tt) in
          match ret with
          | Ok _ =>
              (* set common bits *)
              let it8 := cd_it8_set_originator it8 (cmsIT8GetProperty h "ORIGINATOR") in
              let it8 := cd_it8_set_reference it8 (cmsIT8GetProperty h "REFERENCE") in
              (it8, Ok tt)
          | _ => (it8, ret)
          end
      end
  end.

(** ** The saver *)

(** [cd_it8_color_match]. *)
Definition cd_it8_color_match (rgb : CdColorRGB) (r g b : gdouble) : bool :=
  if ltb float_0_01 (ABS (rgb_R rgb - r)) then false
  else if ltb float_0_01 (ABS (rgb_G rgb - g)) then false
  else if ltb float_0_01 (ABS (rgb_B rgb - b)) then false
  else true.

(** The variables that the first loop of [cd_it8_save_ti1_ti3] updates. *)
Record white_scan : Type := mkScan {
  ret : bool;
  luminance_samples : nat;
  lumi_xyz : CdColorXYZ;
  normalize : gdouble }.

Definition scan_start : white_scan := mkScan true 0 cd_color_clear_xyz zero.

(** The first loop of [cd_it8_save_ti1_ti3]: [ret] takes the answer of
    [cd_it8_color_match] at every sample. *)
Fixpoint scan_white (it8 : CdIt8Private) (i count : nat) (st : white_scan)
  : result white_scan :=
  match count with
  | O => Ok st
  | S count' =>
      match array_rgb it8 !! i with
      | None => Wrong OutOfBounds
      | Some rgb_tmp =>
          (* is this 100% white? *)
          let ret := cd_it8_color_match rgb_tmp one one one in
          if negb ret then
            scan_white it8 (S i) count'
              (mkScan ret (luminance_samples st) (lumi_xyz st) (normalize st))
          else
            match array_xyz it8 !! i with
            | None => Wrong OutOfBounds
            | Some None => Wrong NullPointer
            | Some (Some xyz_tmp) =>
                scan_white it8 (S i) count'
                  (mkScan ret (S (luminance_samples st))
                     (mkXYZ (xyz_X (lumi_xyz st) + xyz_X xyz_tmp)
                            (xyz_Y (lumi_xyz st) + xyz_Y xyz_tmp)
                            (xyz_Z (lumi_xyz st) + xyz_Z xyz_tmp))
                     (if ltb (normalize st) (xyz_Y xyz_tmp) then xyz_Y xyz_tmp
                      else normalize st))
            end
      end
  end.

(** The second loop of [cd_it8_save_ti1_ti3]: one row per sample. *)
Fixpoint save_rows (it8 : CdIt8Private) (normalize : gdouble) (i count : nat)
    (h : cmsHANDLE) : result cmsHANDLE :=
  match count with
  | O => Ok h
  | S count' =>
      match array_rgb it8 !! i, array_xyz it8 !! i with
      | None, _ | _, None => Wrong OutOfBounds
      | Some _, Some None => Wrong NullPointer
      | Some rgb_tmp, Some (Some xyz_tmp) =>
          let h := cmsIT8SetDataRowColDbl h i 0 (of_nat (i + 1)) in
          let h := cmsIT8SetDataRowColDbl h i 1 (rgb_R rgb_tmp) in
          let h := cmsIT8SetDataRowColDbl h i 2 (rgb_G rgb_tmp) in
          let h := cmsIT8SetDataRowColDbl h i 3 (rgb_B rgb_tmp) in
          let h :=
            if normalized it8 then
              let h := cmsIT8SetDataRowColDbl h i 4 (xyz_X xyz_tmp * normalize) in
              let h := cmsIT8SetDataRowColDbl h i 5 (xyz_Y xyz_tmp * normalize) in
              cmsIT8SetDataRowColDbl h i 6 (xyz_Z xyz_tmp * normalize)
            else
              let h := cmsIT8SetDataRowColDbl h i 4 (xyz_X xyz_tmp) in
              let h := cmsIT8SetDataRowColDbl h i 5 (xyz_Y xyz_tmp) in
              cmsIT8SetDataRowColDbl h i 6 (xyz_Z xyz_tmp) in
          save_rows it8 normalize (S i) count' h
      end
  end.

(** [cd_it8_save_ti1_ti3].  The value returned at [out:] is [ret], which
    the first loop has used for the answers of [cd_it8_color_match]. *)
Definition cd_it8_save_ti1_ti3 (it8 : CdIt8Private) (h : cmsHANDLE)
  : result cmsHANDLE :=
  let len := List.length (array_rgb it8) in
  (* calculate the absolute XYZ in candelas per meter squared *)
  st ← (if normalized it8 then
          st ← scan_white it8 0 len scan_start;
          if bool_decide (luminance_samples st = 0%nat) then
            Fail (Some NoWhiteSamples)
          else
            let n := of_nat (luminance_samples st) in
            let lumi := mkXYZ (xyz_X (lumi_xyz st) / n)
                              (xyz_Y (lumi_xyz st) / n)
                              (xyz_Z (lumi_xyz st) / n) in
            (* scale all the readings to 100 *)
            if eqb (normalize st) zero then Wrong NonFinite
            else Ok (mkScan (ret st) (luminance_samples st) lumi
                            (hundred / normalize st))
        else Ok scan_start);
  let lumi_str :=
    printf_f3 (xyz_X (lumi_xyz st)) (xyz_Y (lumi_xyz st)) (xyz_Z (lumi_xyz st)) in
  (* write data *)
  let h :=
    if bool_decide (kind it8 = CD_IT8_KIND_TI1) then
      cmsIT8SetPropertyStr (cmsIT8SetSheetType h "CTI1")
        "DESCRIPTOR" "Calibration Target chart information 1"
    else if bool_decide (kind it8 = CD_IT8_KIND_TI3) then
      cmsIT8SetPropertyStr (cmsIT8SetSheetType h "CTI3")
        "DESCRIPTOR" "Calibration Target chart information 3"
    else h in
  let h :=
    if bool_decide (kind it8 = CD_IT8_KIND_TI3) then
      cmsIT8SetPropertyStr h "DEVICE_CLASS" "DISPLAY"
    else h in
  let h := cmsIT8SetPropertyStr h "COLOR_REP" "RGB_XYZ" in
  let h :=
    match instrument it8 with
    | Some s => cmsIT8SetPropertyStr h "TARGET_INSTRUMENT" s
    | None => h
    end in
  let h := cmsIT8SetPropertyStr h "INSTRUMENT_TYPE_SPECTRAL"
             (if spectral it8 then "YES" else "NO") in
  let h :=
    if normalized it8 then
      cmsIT8SetPropertyStr (cmsIT8SetPropertyStr h "NORMALIZED_TO_Y_100" "YES")
        "LUMINANCE_XYZ_CDM2" lumi_str
    else cmsIT8SetPropertyStr h "NORMALIZED_TO_Y_100" "NO" in
  let h := cmsIT8SetPropertyDbl h "NUMBER_OF_FIELDS" 7 in
  let h := cmsIT8SetPropertyDbl h "NUMBER_OF_SETS" len in
  let h := cmsIT8SetDataFormat h 0 "SAMPLE_ID" in
  let h := cmsIT8SetDataFormat h 1 "RGB_R" in
  let h := cmsIT8SetDataFormat h 2 "RGB_G" in
  let h := cmsIT8SetDataFormat h 3 "RGB_B" in
  let h := cmsIT8SetDataFormat h 4 "XYZ_X" in
  let h := cmsIT8SetDataFormat h 5 "XYZ_Y" in
  let h := cmsIT8SetDataFormat h 6 "XYZ_Z" in
  (* write to the it8 file *)
  h ← save_rows it8 (normalize st) 0 len h;
  if ret st then Ok h else Fail None.

(** [cd_it8_save_ccmx]. *)
Definition cd_it8_save_ccmx (it8 : CdIt8Private) (h : cmsHANDLE) : result cmsHANDLE :=
  let h := cmsIT8SetSheetType h "CCMX" in
  let h := cmsIT8SetPropertyStr h "DESCRIPTOR" "Device Correction Matrix" in
  let h := cmsIT8SetPropertyStr h "COLOR_REP" "XYZ" in
  let h := cmsIT8SetPropertyDbl h "NUMBER_OF_FIELDS" 3 in
  let h := cmsIT8SetPropertyDbl h "NUMBER_OF_SETS" 3 in
  let h := cmsIT8SetDataFormat h 0 "XYZ_X" in
  let h := cmsIT8SetDataFormat h 1 "XYZ_Y" in
  let h := cmsIT8SetDataFormat h 2 "XYZ_Z" in
  (* save instrument *)
  let h :=
    match instrument it8 with
    | Some s => cmsIT8SetPropertyStr h "INSTRUMENT" s
    | None => h
    end in
  (* just load the matrix *)
  let m := matrix it8 in
  let h := cmsIT8SetDataRowColDbl h 0 0 (m00 m) in
  let h := cmsIT8SetDataRowColDbl h 0 1 (m01 m) in
  let h := cmsIT8SetDataRowColDbl h 0 2 (m02 m) in
  let h := cmsIT8SetDataRowColDbl h 1 0 (m10 m) in
  let h := cmsIT8SetDataRowColDbl h 1 1 (m11 m) in
  let h := cmsIT8SetDataRowColDbl h 1 2 (m12 m) in
  let h := cmsIT8SetDataRowColDbl h 2 0 (m20 m) in
  let h := cmsIT8SetDataRowColDbl h 2 1 (m21 m) in
  let h := cmsIT8SetDataRowColDbl h 2 2 (m22 m) in
  Ok h.

(** [cd_it8_save]: the file that is written ([g_file_replace_contents] is
    taken to succeed). *)
Definition cd_it8_save (it8 : CdIt8Private) : result GFile :=
  (* set common data *)
  let h := cmsIT8Alloc in
  let h :=
    match originator it8 with
    | Some s => cmsIT8SetPropertyStr h "ORIGINATOR" s
    | None => h
    end in
  let h :=
    match reference it8 with
    | Some s => cmsIT8SetPropertyStr h "REFERENCE" s
    | None => h
    end in
  (* set ti1 and ti3 specific data *)
  h ← (if is_ti1_ti3 (kind it8) then cd_it8_save_ti1_ti3 it8 h
       else if bool_decide (kind it8 = CD_IT8_KIND_CCMX) then cd_it8_save_ccmx it8 h
       else Ok h);
  (* write the file *)
  Ok (It8Text h).

(** * Definitions for the properties *)

(** ** Alignment of the two arrays *)

(** The documents that the public functions of cd-it8.c can build. *)
Inductive reachable : CdIt8Private → Prop :=
  | reach_new : reachable cd_it8_new
  | reach_set_kind it8 k : reachable it8 → reachable (cd_it8_set_kind it8 k)
  | reach_set_matrix it8 m : reachable it8 → reachable (cd_it8_set_matrix it8 m)
  | reach_set_normalized it8 b :
      reachable it8 → reachable (cd_it8_set_normalized it8 b)
  | reach_set_spectral it8 b : reachable it8 → reachable (cd_it8_set_spectral it8 b)
  | reach_set_instrument it8 s :
      reachable it8 → reachable (cd_it8_set_instrument it8 s)
  | reach_set_reference it8 s :
      reachable it8 → reachable (cd_it8_set_reference it8 s)
  | reach_set_originator it8 s :
      reachable it8 → reachable (cd_it8_set_originator it8 s)
  | reach_add_data it8 rgb xyz :
      reachable it8 → reachable (cd_it8_add_data it8 rgb xyz)
  | reach_load_ok it8 file it8' :
      reachable it8 → cd_it8_load it8 file = (it8', Ok tt) → reachable it8'
  | reach_load_fail it8 file it8' e :
      reachable it8 → cd_it8_load it8 file = (it8', Fail e) → reachable it8'.

(** A sequence of calls of [cd_it8_add_data]. *)
Definition add_samples (it8 : CdIt8Private)
    (calls : list (option CdColorRGB * option CdColorXYZ)) : CdIt8Private :=
  fold_left (λ d call, cd_it8_add_data d call.1 call.2) calls it8.

Definition aligned (it8 : CdIt8Private) : Prop :=
  List.length (array_rgb it8) = List.length (array_xyz it8).

(** ** After a failed load *)

(** What the fields of the document are after a load that returned FALSE:
    the arrays and the matrix are those of the clearing that starts
    [cd_it8_load], the kind may be the one of the sheet type, the rest is
    as before. *)
Record cleared_by_load (file : GFile) (it8 it8' : CdIt8Private) : Prop := {
  cleared_rgb : array_rgb it8' = [];
  cleared_xyz : array_xyz it8' = [];
  cleared_matrix : matrix it8' = cd_mat33_clear;
  kept_normalized : normalized it8' = normalized it8;
  kept_spectral : spectral it8' = spectral it8;
  kept_instrument : instrument it8' = instrument it8;
  kept_reference : reference it8' = reference it8;
  kept_originator : originator it8' = originator it8;
  kind_after :
    kind it8' = kind it8
    ∨ ∃ h, file = It8Text h ∧ kind_of_sheet_type (SheetType h) = Some (kind it8') }.

(** ** The luminance text *)

(** A numeric token, as the specification means it: a decimal number and
    nothing else (sign, digits with an optional point, optional exponent). *)
Definition is_numeric_token (s : string) : bool :=
  let '(_, s1) := take_sign s in
  let '(ip, s2) := take_digits s1 in
  let '(fp, s3) :=
    match s2 with
    | String "."%char r => take_digits r
    | _ => (Decimal.Nil, s2)
    end in
  match ip, fp with
  | Decimal.Nil, Decimal.Nil => false
  | _, _ =>
      match s3 with
      | EmptyString => true
      | String c s4 =>
          if (Ascii.eqb c "e" || Ascii.eqb c "E")%bool then
            match take_digits (take_sign s4).2 with
            | (Decimal.Nil, _) => false
            | (_, EmptyString) => true
            | _ => false
            end
          else false
      end
  end.

(** "Exactly three space-separated numeric tokens". *)
Definition three_numeric_tokens (text : option string) : bool :=
  match g_strsplit_space text with
  | [a; b; c] => is_numeric_token a && is_numeric_token b && is_numeric_token c
  | _ => false
  end.

(** A calibration-target sheet whose data claims to be normalized. *)
Definition normalized_target (h : cmsHANDLE) : Prop :=
  (∃ k, kind_of_sheet_type (SheetType h) = Some k ∧ is_ti1_ti3 k = true)
  ∧ cmsIT8GetProperty h "COLOR_REP" = Some "RGB_XYZ"
  ∧ cmsIT8GetProperty h "NORMALIZED_TO_Y_100" = Some "YES".

(** ** White references *)

(** The tolerance of the specification, 0.01. *)
Definition hundredth : gdouble := Q2Qc (1 # 100).

(** A channel within 0.01 of 1.0, in absolute value. *)
Definition within_tolerance (c : gdouble) : Prop :=
  - hundredth <= c - one ∧ c - one <= hundredth.

(** A white reference, as the specification defines it. *)
Definition white_reference (rgb : CdColorRGB) : Prop :=
  within_tolerance (rgb_R rgb) ∧ within_tolerance (rgb_G rgb)
  ∧ within_tolerance (rgb_B rgb).

(** The XYZ of the samples that [cd_it8_color_match] takes for white, in
    the order of the document. *)
Fixpoint white_xyzs (rgbs : list CdColorRGB) (xyzs : list (option CdColorXYZ))
  : list CdColorXYZ :=
  match rgbs, xyzs with
  | rgb :: rgbs', oxyz :: xyzs' =>
      let rest := white_xyzs rgbs' xyzs' in
      if cd_it8_color_match rgb one one one then
        match oxyz with
        | Some xyz => xyz :: rest
        | None => rest
        end
      else rest
  | _, _ => []
  end.

Definition white_references (it8 : CdIt8Private) : list CdColorXYZ :=
  white_xyzs (array_rgb it8) (array_xyz it8).


(** Sum and average of one channel. *)
Definition sum_of (f : CdColorXYZ → gdouble) (ws : list CdColorXYZ) : gdouble :=
  foldr (λ c acc, f c + acc) zero ws.

Definition average_of (f : CdColorXYZ → gdouble) (ws : list CdColorXYZ) : gdouble :=
  sum_of f ws / of_nat (List.length ws).

(** The maximum that the first loop keeps in [normalize], started at [m]. *)
Definition running_max (m : gdouble) (ws : list CdColorXYZ) : gdouble :=
  fold_left (λ m c, if ltb m (xyz_Y c) then xyz_Y c else m) ws m.

(** Is the last sample of the document white for [cd_it8_color_match]? *)
Definition last_match (rgbs : list CdColorRGB) (r0 : bool) : bool :=
  match last rgbs with
  | Some rgb => cd_it8_color_match rgb one one one
  | None => r0
  end.

(** ** What the saver writes *)

(** The row that the second loop writes for sample [j]. *)
Record row_written (it8 : CdIt8Private) (nz : gdouble) (h : cmsHANDLE) (j : nat)
    (rgb : CdColorRGB) (xyz : CdColorXYZ) : Prop := {
  row_id : Data h !! (j, 0%nat) = Some (of_nat (j + 1));
  row_R : Data h !! (j, 1%nat) = Some (rgb_R rgb);
  row_G : Data h !! (j, 2%nat) = Some (rgb_G rgb);
  row_B : Data h !! (j, 3%nat) = Some (rgb_B rgb);
  row_X : Data h !! (j, 4%nat)
          = Some (if normalized it8 then xyz_X xyz * nz else xyz_X xyz);
  row_Y : Data h !! (j, 5%nat)
          = Some (if normalized it8 then xyz_Y xyz * nz else xyz_Y xyz);
  row_Z : Data h !! (j, 6%nat)
          = Some (if normalized it8 then xyz_Z xyz * nz else xyz_Z xyz) }.

(** What a successful save of a normalized calibration target has written. *)
Record normalized_file (it8 : CdIt8Private) (h : cmsHANDLE) : Prop := {
  nf_white : white_references it8 ≠ [];
  nf_max : running_max zero (white_references it8) ≠ zero;
  nf_last : last_match (array_rgb it8) true = true;
  nf_sheet : kind_of_sheet_type (SheetType h) = Some (kind it8);
  nf_color_rep : cmsIT8GetProperty h "COLOR_REP" = Some "RGB_XYZ";
  nf_normalized : cmsIT8GetProperty h "NORMALIZED_TO_Y_100" = Some "YES";
  nf_luminance :
    cmsIT8GetProperty h "LUMINANCE_XYZ_CDM2"
    = Some (printf_f3 (average_of xyz_X (white_references it8))
                      (average_of xyz_Y (white_references it8))
                      (average_of xyz_Z (white_references it8)));
  nf_sets :
    cmsIT8GetProperty h "NUMBER_OF_SETS"
    = Some (string_of_N (N.of_nat (List.length (array_rgb it8))));
  nf_rows : ∀ j, (j < List.length (array_rgb it8))%nat →
    ∃ rgb xyz, array_rgb it8 !! j = Some rgb
               ∧ array_xyz it8 !! j = Some (Some xyz)
               ∧ row_written it8 (hundred / running_max zero (white_references it8))
                   h j rgb xyz }.

(** Every sample has an XYZ colour (no NULL entry, no missing entry). *)
Definition all_xyz_present (it8 : CdIt8Private) : Prop :=
  ∀ j, (j < List.length (array_rgb it8))%nat →
       ∃ xyz, array_xyz it8 !! j = Some (Some xyz).

(** ** What the loader reads back *)

(** A string without a space. *)
Fixpoint no_space (s : string) : bool :=
  match s with
  | EmptyString => true
  | String c r => negb (Ascii.eqb c " ") && no_space r
  end.

(** The RGB that the loader makes of a row when the file is normalized. *)
Definition rgb_div100 (c : CdColorRGB) : CdColorRGB :=
  mkRGB (rgb_R c / hundred) (rgb_G c / hundred) (rgb_B c / hundred).

Definition row_rgb_div100 (h : cmsHANDLE) (j : nat) : CdColorRGB :=
  rgb_div100 (mkRGB (cmsIT8GetDataRowColDbl h j 1) (cmsIT8GetDataRowColDbl h j 2)
                    (cmsIT8GetDataRowColDbl h j 3)).

(** ** Concrete documents and files *)

(** Equality of colours is decidable. *)
#[global] Instance CdColorRGB_eq_dec : EqDecision CdColorRGB.
Proof. solve_decision. Defined.

#[global] Instance CdColorXYZ_eq_dec : EqDecision CdColorXYZ.
Proof. solve_decision. Defined.

Definition white_rgb : CdColorRGB := mkRGB one one one.

(** XYZ (95.0, 100.0, 108.9), the white of the specification's scenario. *)
Definition white_xyz : CdColorXYZ := mkXYZ (of_Z 95) (of_Z 100) (Q2Qc (1089 # 10)).

Definition new_normalized_ti3 : CdIt8Private :=
  cd_it8_set_normalized (cd_it8_new_with_kind CD_IT8_KIND_TI3) true.

(** The scenario of the specification: a white sample, then a black one. *)
Definition scenario_white_first : CdIt8Private :=
  cd_it8_add_data
    (cd_it8_add_data new_normalized_ti3 (Some white_rgb) (Some white_xyz))
    (Some black_rgb) (Some black_xyz).

(** The same samples in the other order. *)
Definition scenario_white_last : CdIt8Private :=
  cd_it8_add_data
    (cd_it8_add_data new_normalized_ti3 (Some black_rgb) (Some black_xyz))
    (Some white_rgb) (Some white_xyz).

(** One black sample. *)
Definition only_black : CdIt8Private :=
  cd_it8_add_data new_normalized_ti3 None None.

(** A correction matrix. *)
Definition some_ccmx : CdIt8Private :=
  cd_it8_set_matrix (cd_it8_new_with_kind CD_IT8_KIND_CCMX)
    (mkMat (of_Z 1) (of_Z 2) (of_Z 3) (of_Z 4) (Q2Qc (1 # 2)) (of_Z 6)
           (of_Z 7) (of_Z 8) (Q2Qc (-9 # 10))).

(** A normalized CTI3 sheet without rows, with the given luminance text. *)
Definition sheet_with_luminance (text : string) : cmsHANDLE :=
  cmsIT8SetPropertyStr
    (cmsIT8SetPropertyStr
       (cmsIT8SetPropertyStr
          (cmsIT8SetPropertyStr (cmsIT8SetSheetType cmsIT8Alloc "CTI3")
             "COLOR_REP" "RGB_XYZ")
          "NORMALIZED_TO_Y_100" "YES")
       "LUMINANCE_XYZ_CDM2" text)
    "NUMBER_OF_SETS" "0".

(** ** Statements of the specification that the code does not satisfy *)

(** C4 as stated: a load that fails leaves every field as it was. *)
Definition failed_load_changes_nothing (it8 : CdIt8Private) (file : GFile) : Prop :=
  ∀ it8' e, cd_it8_load it8 file = (it8', Fail e) → it8' = it8.

(** C5 as stated: a luminance that is not three numeric tokens makes the
    load of a normalized calibration target fail with the luminance error. *)
Definition luminance_must_be_numeric (h : cmsHANDLE) : Prop :=
  normalized_target h →
  three_numeric_tokens (cmsIT8GetProperty h "LUMINANCE_XYZ_CDM2") = false →
  ∀ it8, ∃ e, (cd_it8_load it8 (It8Text h)).2 = Fail (Some e)
              ∧ error_kind e = InvalidLuminance.

(** * Definitions for the further properties *)

(** ** Further definitions: the rows of a file as the loader reads them *)

(** The RGB and the XYZ that the loop of [cd_it8_load_ti1_ti3] makes of
    row [j]. *)
Definition row_rgb (h : cmsHANDLE) (luminance : option CdColorXYZ) (j : nat)
  : CdColorRGB :=
  let rgb := mkRGB (cmsIT8GetDataRowColDbl h j 1) (cmsIT8GetDataRowColDbl h j 2)
                   (cmsIT8GetDataRowColDbl h j 3) in
  match luminance with
  | Some _ => rgb_div100 rgb
  | None => rgb
  end.

Definition row_xyz (h : cmsHANDLE) (luminance : option CdColorXYZ) (j : nat)
  : CdColorXYZ :=
  let xyz := mkXYZ (cmsIT8GetDataRowColDbl h j 4) (cmsIT8GetDataRowColDbl h j 5)
                   (cmsIT8GetDataRowColDbl h j 6) in
  match luminance with
  | Some l => mkXYZ (xyz_X xyz / hundred * xyz_X l) (xyz_Y xyz / hundred * xyz_Y l)
                    (xyz_Z xyz / hundred * xyz_Z l)
  | None => xyz
  end.

(** The number of spaces of a string. *)
Fixpoint count_spaces (s : string) : nat :=
  match s with
  | EmptyString => 0
  | String c r => if Ascii.eqb c " " then S (count_spaces r) else count_spaces r
  end.

(** ** Further definitions: the file of a calibration target *)

(** What [cd_it8_save] has put into the file of a calibration target:
    the header, and one row per sample, [nz] being the scale factor of the
    normalized case. *)
Record target_file (it8 : CdIt8Private) (nz : gdouble) (h : cmsHANDLE) : Prop := {
  tf_sheet : kind_of_sheet_type (SheetType h) = Some (kind it8);
  tf_color_rep : cmsIT8GetProperty h "COLOR_REP" = Some "RGB_XYZ";
  tf_spectral :
    cmsIT8GetProperty h "INSTRUMENT_TYPE_SPECTRAL"
    = Some (if spectral it8 then "YES" else "NO");
  tf_normalized :
    cmsIT8GetProperty h "NORMALIZED_TO_Y_100"
    = Some (if normalized it8 then "YES" else "NO");
  tf_fields : cmsIT8GetProperty h "NUMBER_OF_FIELDS" = Some "7";
  tf_sets :
    cmsIT8GetProperty h "NUMBER_OF_SETS"
    = Some (string_of_N (N.of_nat (List.length (array_rgb it8))));
  tf_rows : ∀ j, (j < List.length (array_rgb it8))%nat →
    ∃ rgb xyz, array_rgb it8 !! j = Some rgb
               ∧ array_xyz it8 !! j = Some (Some xyz)
               ∧ row_written it8 nz h j rgb xyz }.

(** ** Further definitions: the reload of a normalized file *)

(** The luminance that the loader reads from the text that the saver has
    printed for the white references [ws]. *)
Definition reread_luminance (ws : list CdColorXYZ) : CdColorXYZ :=
  mkXYZ (atof (printf_f (average_of xyz_X ws)))
        (atof (printf_f (average_of xyz_Y ws)))
        (atof (printf_f (average_of xyz_Z ws))).

(** The XYZ that comes back for a sample of a normalized document: each
    channel is scaled by 100 / max_Y on the way out, and by a hundredth of
    the same channel of the luminance on the way in. *)
Definition reloaded_xyz (it8 : CdIt8Private) (xyz : CdColorXYZ) : CdColorXYZ :=
  let ws := white_references it8 in
  let s := hundred / running_max zero ws in
  let l := reread_luminance ws in
  mkXYZ (xyz_X xyz * s / hundred * xyz_X l)
        (xyz_Y xyz * s / hundred * xyz_Y l)
        (xyz_Z xyz * s / hundred * xyz_Z l).

(** ** Further definitions: the precision of the luminance text *)

(** Half a unit of the sixth decimal, 0.0000005. *)
Definition half_millionth : gdouble := Q2Qc (1 # 2000000).

Definition within_half_millionth (a b : gdouble) : Prop :=
  - half_millionth <= a - b ∧ a - b <= half_millionth.

(** ** Further concrete documents and files *)

(** A calibration target that is not normalized: a white sample and a
    black one. *)
Definition plain_two_samples : CdIt8Private :=
  cd_it8_add_data
    (cd_it8_add_data (cd_it8_new_with_kind CD_IT8_KIND_TI1)
       (Some white_rgb) (Some white_xyz))
    None None.

(** A CTI1 sheet that declares two sets and has no cell. *)
Definition two_empty_rows : cmsHANDLE :=
  cmsIT8SetPropertyStr
    (cmsIT8SetPropertyStr (cmsIT8SetSheetType cmsIT8Alloc "CTI1")
       "COLOR_REP" "RGB_XYZ")
    "NUMBER_OF_SETS" "2".

(** A CTI3 sheet without any property. *)
Definition bare_cti3 : cmsHANDLE := cmsIT8SetSheetType cmsIT8Alloc "CTI3".

(** A CCMX sheet with its COLOR_REP and no cell. *)
Definition empty_ccmx : cmsHANDLE :=
  cmsIT8SetPropertyStr (cmsIT8SetSheetType cmsIT8Alloc "CCMX") "COLOR_REP" "XYZ".

(** * Properties *)

(** ** Small facts on numbers *)

Lemma one_neq_zero : one ≠ zero.
Proof. intros H. apply (f_equal this) in H. discriminate H. Qed.

Lemma hundred_neq_zero : hundred ≠ zero.
Proof. intros H. apply (f_equal this) in H. discriminate H. Qed.

Lemma ltb_lt (a b : gdouble) : ltb a b = true ↔ a < b.
Proof. unfold ltb. apply bool_decide_eq_true. Qed.

Lemma ltb_ge (a b : gdouble) : ltb a b = false ↔ b <= a.
Proof.
  unfold ltb. rewrite bool_decide_eq_false. split.
  - apply Qcnot_lt_le.
  - apply Qcle_not_lt.
Qed.

Lemma eqb_eq (a b : gdouble) : eqb a b = true ↔ a = b.
Proof. unfold eqb. apply bool_decide_eq_true. Qed.

Lemma eqb_neq (a b : gdouble) : eqb a b = false ↔ a ≠ b.
Proof. unfold eqb. apply bool_decide_eq_false. Qed.

(** ** The document model *)

(** The samples grow by one entry in each array. *)
Lemma add_data_arrays (it8 : CdIt8Private) rgb xyz :
  ∃ c x, array_rgb (cd_it8_add_data it8 rgb xyz) = array_rgb it8 ++ [c]
       ∧ array_xyz (cd_it8_add_data it8 rgb xyz) = array_xyz it8 ++ [x].
Proof. destruct rgb; simpl; eauto. Qed.

(** Without an RGB argument the sample is black in both arrays, whatever
    the XYZ argument is. *)
Lemma add_data_rgb_absent (it8 : CdIt8Private) xyz :
  array_rgb (cd_it8_add_data it8 None xyz) = array_rgb it8 ++ [black_rgb]
  ∧ array_xyz (cd_it8_add_data it8 None xyz) = array_xyz it8 ++ [Some black_xyz].
Proof. split; reflexivity. Qed.

(** With an RGB argument the RGB argument is stored, and so is the copy of
    the XYZ argument. *)
Lemma add_data_rgb_present (it8 : CdIt8Private) rgb xyz :
  array_rgb (cd_it8_add_data it8 (Some rgb) xyz) = array_rgb it8 ++ [rgb]
  ∧ array_xyz (cd_it8_add_data it8 (Some rgb) xyz)
    = array_xyz it8 ++ [cd_color_xyz_dup xyz].
Proof. split; reflexivity. Qed.

(** C2, for an RGB colour given without an XYZ colour.  [cd_it8_add_data] stores the RGB colour itself, here white
    and not black, and the copy of the absent XYZ colour, which is no
    colour; the pair ((0,0,0),(0,0,0)) is not what is appended. *)
Theorem C2_add_data_xyz_absent :
  let white := mkRGB one one one in
  let it8 := cd_it8_add_data cd_it8_new (Some white) None in
  array_rgb it8 = [white] ∧ array_xyz it8 = [None]
  ∧ white ≠ black_rgb ∧ array_xyz it8 ≠ [Some black_xyz].
Proof.
  simpl. repeat split.
  - intros H. exact (one_neq_zero (f_equal rgb_R H)).
  - discriminate.
Qed.

(** [cd_it8_get_data_item] returns FALSE exactly when the index is above
    the number of samples: the index equal to that number passes the test. *)
Lemma get_data_item_fails_iff (it8 : CdIt8Private) idx want_rgb want_xyz :
  (∃ e, cd_it8_get_data_item it8 idx want_rgb want_xyz = Fail e)
  ↔ (cd_it8_get_data_size it8 < idx)%nat.
Proof.
  unfold cd_it8_get_data_item, cd_it8_get_data_size. case_bool_decide as Hlt.
  - split; eauto.
  - split; [|done]. intros [e He]. exfalso. revert He.
    destruct want_rgb, want_xyz; simpl;
      repeat (match goal with |- context [?l !! idx] => destruct (l !! idx) end; simpl);
      discriminate.
Qed.

(** C3, at the index equal to the number of samples (0, in a new
    document): with no out-parameter the call returns TRUE, with one it
    reads past the end of the array; it does not fail. *)
Theorem C3_get_data_item_at_size :
  cd_it8_get_data_size cd_it8_new = 0%nat
  ∧ cd_it8_get_data_item cd_it8_new 0 false false = Ok (None, None)
  ∧ cd_it8_get_data_item cd_it8_new 0 true true = Wrong OutOfBounds.
Proof. repeat split. Qed.

(** *** The alignment invariant *)

Lemma load_rows_aligned h luminance count : ∀ i it8,
  aligned it8 → aligned (load_rows h luminance i count it8).
Proof.
  induction count as [|count IH]; intros i it8 Hal; simpl; [done|].
  apply IH. unfold aligned in *. simpl. rewrite !length_app. simpl. lia.
Qed.

Lemma load_ti1_ti3_aligned it8 h :
  aligned it8 → aligned (cd_it8_load_ti1_ti3 it8 h).1.
Proof.
  intros Hal. unfold cd_it8_load_ti1_ti3.
  destruct (negb _); [done|].
  destruct (g_strcmp0_eq _ "YES"); simpl.
  - destruct (cd_it8_parse_luminance _); simpl; try done.
    destruct (to_guint _); simpl; [|done]. by apply load_rows_aligned.
  - destruct (to_guint _); simpl; [|done]. by apply load_rows_aligned.
Qed.

(** Whatever [cd_it8_load] returns, it leaves the two arrays with the same
    length. *)
Lemma load_aligned it8 file : aligned (cd_it8_load it8 file).1.
Proof.
  unfold cd_it8_load. destruct file as [| |h]; try done.
  destruct (kind_of_sheet_type _) as [k|]; [|done].
  set (d := cd_it8_set_kind _ k).
  assert (Hd : aligned d) by done.
  destruct (is_ti1_ti3 (kind d)).
  - pose proof (load_ti1_ti3_aligned d h Hd) as H.
    destruct (cd_it8_load_ti1_ti3 d h) as [d' [[]|e|w]]; done.
  - destruct (bool_decide (kind d = CD_IT8_KIND_CCMX)); simpl; [|done].
    unfold cd_it8_load_ccmx. destruct (negb _); done.
Qed.

Lemma add_data_aligned it8 rgb xyz :
  aligned it8 → aligned (cd_it8_add_data it8 rgb xyz).
Proof.
  unfold aligned. destruct (add_data_arrays it8 rgb xyz) as (c & x & -> & ->).
  rewrite !length_app. simpl. lia.
Qed.

Lemma reachable_aligned it8 : reachable it8 → aligned it8.
Proof.
  induction 1 as [| | | | | | | |it8 rgb xyz _ IH|it8 file it8' _ _ Hl|it8 file it8' e _ _ Hl];
    try done.
  - by apply add_data_aligned.
  - pose proof (load_aligned it8 file) as H. by rewrite Hl in H.
  - pose proof (load_aligned it8 file) as H. by rewrite Hl in H.
Qed.

Lemma add_samples_reachable calls : ∀ it8,
  reachable it8 → reachable (add_samples it8 calls).
Proof.
  induction calls as [|[rgb xyz] calls IH]; intros it8 Hr; simpl; [done|].
  apply IH. by constructor.
Qed.

(** C8: in every document that the public functions can build (so after
    every load, successful or not), and after any further sequence of calls
    of [cd_it8_add_data] with present or absent arguments, the RGB array
    and the XYZ array have the same length. *)
Theorem C8_alignment_invariant (it8 : CdIt8Private)
    (calls : list (option CdColorRGB * option CdColorXYZ)) :
  reachable it8 →
  List.length (array_rgb (add_samples it8 calls))
  = List.length (array_xyz (add_samples it8 calls)).
Proof. intros Hr. by apply reachable_aligned, add_samples_reachable. Qed.

(** ** Failed loads *)

(** C4 as amended: after a load that fails, the samples are empty and the
    matrix is zero, whatever the document held before; the flags and the
    metadata are those before the call; the kind is the one before the call
    or the one that the sheet type names. *)
Theorem C4_failed_load_clears (it8 it8' : CdIt8Private) (file : GFile) e :
  cd_it8_load it8 file = (it8', Fail e) → cleared_by_load file it8 it8'.
Proof.
  unfold cd_it8_load. destruct file as [| |h].
  - intros [= <- _]. split; auto.
  - intros [= <- _]. split; auto.
  - unfold cmsIT8GetSheetType.
    destruct (kind_of_sheet_type (SheetType h)) as [k|] eqn:Hk.
    2:{ intros [= <- _]. split; auto. }
    set (d := cd_it8_set_kind _ k).
    assert (Hd : cleared_by_load (It8Text h) it8 d).
    { split; auto. right. exists h. auto. }
    destruct (is_ti1_ti3 (kind d)).
    + unfold cd_it8_load_ti1_ti3. destruct (negb _).
      { intros [= <- _]. exact Hd. }
      destruct (g_strcmp0_eq _ "YES"); simpl.
      * destruct (cd_it8_parse_luminance _); simpl.
        -- destruct (to_guint _); simpl; discriminate.
        -- intros [= <- _]. exact Hd.
        -- discriminate.
      * destruct (to_guint _); simpl; discriminate.
    + destruct (bool_decide (kind d = CD_IT8_KIND_CCMX)); [|discriminate].
      unfold cd_it8_load_ccmx. destruct (negb _); [|discriminate].
      intros [= <- _]. exact Hd.
Qed.

(** ** The luminance property *)

Lemma parse_luminance_fails_iff text :
  g_strv_length (g_strsplit_space text) ≠ 3%nat
  ↔ cd_it8_parse_luminance text = Fail (Some (LuminanceFormatInvalid text)).
Proof.
  unfold cd_it8_parse_luminance. case_bool_decide; split; try done.
Qed.

Lemma parse_luminance_three text :
  g_strv_length (g_strsplit_space text) = 3%nat →
  ∃ l, cd_it8_parse_luminance text = Ok l.
Proof.
  intros H. unfold cd_it8_parse_luminance. case_bool_decide; [done|eauto].
Qed.

(** C5 as amended: on a normalized calibration target the load fails with
    the luminance error when LUMINANCE_XYZ_CDM2, cut at every space, does
    not have exactly three pieces (none, when the property is absent), and
    it does not fail when it has three, whatever the pieces are. *)
Theorem C5_luminance_token_count (it8 : CdIt8Private) (h : cmsHANDLE) :
  normalized_target h →
  let text := cmsIT8GetProperty h "LUMINANCE_XYZ_CDM2" in
  (g_strv_length (g_strsplit_space text) ≠ 3%nat →
     (cd_it8_load it8 (It8Text h)).2 = Fail (Some (LuminanceFormatInvalid text))
     ∧ error_kind (LuminanceFormatInvalid text) = InvalidLuminance)
  ∧ (g_strv_length (g_strsplit_space text) = 3%nat →
     ∀ e, (cd_it8_load it8 (It8Text h)).2 ≠ Fail e).
Proof.
  intros ((k & Hk & Hti) & Hrep & Hnorm) text.
  unfold cd_it8_load, cmsIT8GetSheetType. rewrite Hk. simpl kind. rewrite Hti.
  unfold cd_it8_load_ti1_ti3. rewrite Hrep, Hnorm. simpl negb. cbv iota.
  replace (g_strcmp0_eq (Some "YES") "YES") with true by reflexivity.
  fold text. split.
  - intros Hn. apply parse_luminance_fails_iff in Hn. rewrite Hn. done.
  - intros H3 e. destruct (parse_luminance_three text H3) as [l ->]. simpl.
    destruct (to_guint _); simpl; discriminate.
Qed.

(** ** White references *)

(** Goals on the order of [Qc] become goals on [Q], which [lra] decides. *)
Ltac qc_to_q :=
  unfold ABS, ltb, eqb, hundred, one, zero, float_0_01, hundredth, of_nat, of_Z,
         Qcle, Qclt, Qcminus, Qcplus, Qcopp, Qcmult, Q2Qc in *;
  cbn [this] in *; rewrite ?Qred_correct in *; unfold inject_Z in *.

Lemma channel_match_within (c : gdouble) :
  ltb float_0_01 (ABS (c - one)) = false → within_tolerance c.
Proof.
  intros H. apply ltb_ge in H. unfold ABS in H. unfold within_tolerance.
  destruct (ltb (c - one) zero) eqn:E; [apply ltb_lt in E | apply ltb_ge in E];
    qc_to_q; split; lra.
Qed.

(** What [cd_it8_color_match] takes for white is a white reference: the
    tolerance of the code, [0.01f], is below 0.01. *)
Lemma color_match_white_reference (rgb : CdColorRGB) :
  cd_it8_color_match rgb one one one = true → white_reference rgb.
Proof.
  unfold cd_it8_color_match, white_reference.
  destruct (ltb _ (ABS (rgb_R rgb - one))) eqn:ER; [discriminate|].
  destruct (ltb _ (ABS (rgb_G rgb - one))) eqn:EG; [discriminate|].
  destruct (ltb _ (ABS (rgb_B rgb - one))) eqn:EB; [discriminate|].
  auto using channel_match_within.
Qed.

(** The converse fails at the edge of the tolerance: a red channel of 0.99
    is within 0.01 of 1.0, and above [0.01f] away from it. *)
Lemma white_reference_not_matched :
  white_reference (mkRGB (Q2Qc (99 # 100)) one one)
  ∧ cd_it8_color_match (mkRGB (Q2Qc (99 # 100)) one one) one one one = false.
Proof.
  split; [|reflexivity].
  repeat split; simpl; qc_to_q; apply Qle_bool_iff; reflexivity.
Qed.

(** The first loop over samples none of which matches: no sample is
    counted and no entry of the XYZ array is read. *)
Lemma scan_white_no_match (it8 : CdIt8Private) count : ∀ i st,
  (i + count)%nat = List.length (array_rgb it8) →
  (∀ rgb, rgb ∈ array_rgb it8 → cd_it8_color_match rgb one one one = false) →
  ∃ st', scan_white it8 i count st = Ok st'
         ∧ luminance_samples st' = luminance_samples st.
Proof.
  induction count as [|count IH]; intros i st Hlen Hno; simpl; [eauto|].
  destruct (array_rgb it8 !! i) as [rgb|] eqn:Hi.
  2:{ apply lookup_ge_None in Hi. lia. }
  rewrite (Hno rgb) by (eapply list_elem_of_lookup_2; eauto). simpl.
  destruct (IH (S i) (mkScan false (luminance_samples st) (lumi_xyz st) (normalize st)))
    as (st' & -> & Hs); [lia|done|]. eauto.
Qed.

(** C6: a normalized calibration target in which no sample is a white
    reference (each channel within 0.01 of 1.0) is not saved: the saver
    fails with the error of the missing white sample. *)
Theorem C6_no_white_sample (it8 : CdIt8Private) :
  is_ti1_ti3 (kind it8) = true →
  normalized it8 = true →
  (∀ rgb, rgb ∈ array_rgb it8 → ¬ white_reference rgb) →
  cd_it8_save it8 = Fail (Some NoWhiteSamples)
  ∧ error_kind NoWhiteSamples = NoWhiteSample.
Proof.
  intros Hk Hn Hno. split; [|done].
  unfold cd_it8_save. rewrite Hk. unfold cd_it8_save_ti1_ti3. rewrite Hn.
  destruct (scan_white_no_match it8 (List.length (array_rgb it8)) 0 scan_start)
    as (st & -> & Hs); [done| |].
  - intros rgb Hin. destruct (cd_it8_color_match rgb one one one) eqn:E; [|done].
    destruct (Hno rgb Hin). by apply color_match_white_reference.
  - simpl in Hs. simpl. rewrite Hs. done.
Qed.

(** ** The correction matrix *)

(** C9: a correction matrix that is saved and loaded again, into any
    document, is the matrix that was saved, entry by entry (the cells of the
    handle keep the numbers that are put into them). *)
Theorem C9_matrix_round_trip (it8 target : CdIt8Private) :
  kind it8 = CD_IT8_KIND_CCMX →
  ∃ file loaded,
    cd_it8_save it8 = Ok file
    ∧ cd_it8_load target file = (loaded, Ok tt)
    ∧ kind loaded = CD_IT8_KIND_CCMX
    ∧ matrix loaded = matrix it8.
Proof.
  intros Hk.
  destruct it8 as [k [a00 a01 a02 a10 a11 a12 a20 a21 a22] n s ins ref orig rgbs xyzs].
  simpl in Hk. subst k.
  destruct ins, ref, orig; (eexists _, _; split; [reflexivity|]);
    (split; [vm_compute; reflexivity | split; reflexivity]).
Qed.

(** ** Normalization in the saver *)

Lemma drop_lookup_cons {A} (l : list A) i x :
  l !! i = Some x → drop i l = x :: drop (S i) l.
Proof.
  revert i. induction l as [|a l IH]; intros [|i] H; simpl in *; try done.
  - by injection H as ->.
  - rewrite (IH i H). done.
Qed.

Lemma running_max_ge m ws : m <= running_max m ws.
Proof.
  revert m. induction ws as [|c ws IH]; intros m; simpl; [apply Qcle_refl|].
  destruct (ltb m (xyz_Y c)) eqn:E.
  - apply ltb_lt in E. eapply Qcle_trans; [apply Qclt_le_weak, E | apply IH].
  - apply IH.
Qed.

Lemma running_max_upper m ws c : c ∈ ws → xyz_Y c <= running_max m ws.
Proof.
  revert m. induction ws as [|c' ws IH]; intros m Hin; [by apply elem_of_nil in Hin|].
  apply elem_of_cons in Hin as [->|Hin]; simpl.
  - destruct (ltb m (xyz_Y c')) eqn:E.
    + apply running_max_ge.
    + apply ltb_ge in E. eapply Qcle_trans; [exact E | apply running_max_ge].
  - by apply IH.
Qed.



(** The first loop, from sample [i] to the end of the document. *)
Lemma scan_white_spec (it8 : CdIt8Private) count : ∀ i st st',
  (i + count)%nat = List.length (array_rgb it8) →
  scan_white it8 i count st = Ok st' →
  let ws := white_xyzs (drop i (array_rgb it8)) (drop i (array_xyz it8)) in
  luminance_samples st' = (luminance_samples st + List.length ws)%nat
  ∧ xyz_X (lumi_xyz st') = xyz_X (lumi_xyz st) + sum_of xyz_X ws
  ∧ xyz_Y (lumi_xyz st') = xyz_Y (lumi_xyz st) + sum_of xyz_Y ws
  ∧ xyz_Z (lumi_xyz st') = xyz_Z (lumi_xyz st) + sum_of xyz_Z ws
  ∧ normalize st' = running_max (normalize st) ws
  ∧ ret st' = last_match (drop i (array_rgb it8)) (ret st).
Proof.
  induction count as [|count IH]; intros i st st' Hlen; simpl.
  - intros [= <-]. rewrite drop_ge by lia. simpl. unfold last_match. simpl.
    unfold sum_of. simpl. change zero with 0. rewrite !Qcplus_0_r.
    repeat split; try done; lia.
  - destruct (array_rgb it8 !! i) as [rgb|] eqn:Hrgb; [|discriminate].
    rewrite (drop_lookup_cons _ _ _ Hrgb).
    assert (Hlast : ∀ r0, last_match (rgb :: drop (S i) (array_rgb it8)) r0
              = last_match (drop (S i) (array_rgb it8))
                  (cd_it8_color_match rgb one one one)).
    { intros r0. unfold last_match. simpl.
      destruct (drop (S i) (array_rgb it8)) as [|a l]; simpl; [done|].
      destruct (last (a :: l)) eqn:E; [done|]. by apply last_None in E. }
    destruct (cd_it8_color_match rgb one one one) eqn:Hm; simpl.
    + destruct (array_xyz it8 !! i) as [[xyz|]|] eqn:Hxyz; try discriminate.
      rewrite (drop_lookup_cons _ _ _ Hxyz). intros Hscan.
      apply IH in Hscan; [|lia]. simpl in Hscan.
      destruct Hscan as (Hn & HX & HY & HZ & Hmax & Hret).
      cbn [white_xyzs]. rewrite Hm. cbn [List.length sum_of foldr running_max fold_left].
      rewrite Hlast, ?Hm. fold (sum_of xyz_X) (sum_of xyz_Y) (sum_of xyz_Z).
      rewrite HX, HY, HZ, !Qcplus_assoc. repeat split; try done. lia.
    + intros Hscan. apply IH in Hscan; [|lia]. simpl in Hscan.
      destruct Hscan as (Hn & HX & HY & HZ & Hmax & Hret).
      rewrite Hlast, ?Hm.
      destruct (array_xyz it8 !! i) as [oxyz|] eqn:Hxyz.
      * rewrite (drop_lookup_cons _ _ _ Hxyz). cbn [white_xyzs]. rewrite ?Hm. done.
      * rewrite (drop_ge (array_xyz it8) i) by (by apply lookup_ge_None).
        rewrite (drop_ge (array_xyz it8) (S i)) in Hn, HX, HY, HZ, Hmax
          by (apply lookup_ge_None in Hxyz; lia).
        cbn [white_xyzs].
        destruct (drop (S i) (array_rgb it8)); simpl in *; done.
Qed.

(** The second loop, from sample [i] on: it writes the rows [i] to
    [i + count - 1], leaves the rows before them and the properties as they
    are, and it needs an XYZ colour for every sample. *)
Lemma save_rows_spec (it8 : CdIt8Private) nz count : ∀ i h h',
  save_rows it8 nz i count h = Ok h' →
  SheetType h' = SheetType h
  ∧ Properties h' = Properties h
  ∧ (∀ j c, (j < i)%nat → Data h' !! (j, c) = Data h !! (j, c))
  ∧ (∀ j, (i ≤ j < i + count)%nat →
       ∃ rgb xyz, array_rgb it8 !! j = Some rgb
                  ∧ array_xyz it8 !! j = Some (Some xyz)
                  ∧ row_written it8 nz h' j rgb xyz).
Proof.
  induction count as [|count IH]; intros i h h'; simpl.
  - intros [= <-]. repeat split; try done. intros j Hj. lia.
  - destruct (array_rgb it8 !! i) as [rgb|] eqn:Hrgb; [|discriminate].
    destruct (array_xyz it8 !! i) as [[xyz|]|] eqn:Hxyz; try discriminate.
    intros Hsave. apply IH in Hsave as (Hsheet & Hprops & Hbefore & Hrows).
    split; [by destruct (normalized it8)|].
    split; [by destruct (normalized it8)|].
    split.
    + intros j c Hj. rewrite Hbefore by lia.
      destruct (normalized it8); simpl;
        by rewrite !lookup_insert_ne by (intros [=]; lia).
    + intros j Hj. destruct (decide (j = i)) as [->|Hne].
      * exists rgb, xyz. split; [done|]. split; [done|].
        split; rewrite Hbefore by lia;
          destruct (normalized it8); simpl;
          repeat (rewrite lookup_insert_ne by (intros [=]; lia));
          by rewrite lookup_insert_eq.
      * apply Hrows. lia.
Qed.

Lemma save_normalized_ok (it8 : CdIt8Private) (file : GFile) :
  is_ti1_ti3 (kind it8) = true →
  normalized it8 = true →
  cd_it8_save it8 = Ok file →
  ∃ h, file = It8Text h ∧ normalized_file it8 h.
Proof.
  intros Hk Hn. unfold cd_it8_save. rewrite Hk. unfold cd_it8_save_ti1_ti3.
  rewrite Hn.
  destruct (scan_white it8 0 _ scan_start) as [st| |] eqn:Hscan; try discriminate.
  apply scan_white_spec in Hscan; [|done]. rewrite !drop_0 in Hscan.
  fold (white_references it8) in Hscan. simpl in Hscan.
  destruct Hscan as (Hcount & HX & HY & HZ & Hmax & Hret).
  change zero with 0 in HX, HY, HZ. rewrite Qcplus_0_l in HX, HY, HZ.
  cbn [mbind result_bind].
  destruct (bool_decide (luminance_samples st = 0%nat)) eqn:Hzero;
    cbn [mbind result_bind]; [discriminate|].
  apply bool_decide_eq_false in Hzero.
  destruct (eqb (normalize st) zero) eqn:Hnz; cbn [mbind result_bind];
    [discriminate|].
  apply eqb_neq in Hnz. cbn [normalize lumi_xyz ret xyz_X xyz_Y xyz_Z].
  match goal with
  | |- context [save_rows it8 ?nz 0 ?len ?h0] =>
      set (hbase := h0) in *;
      destruct (save_rows it8 nz 0 len hbase) as [h| |] eqn:Hrows;
      cbn [mbind result_bind]; try discriminate
  end.
  destruct (ret st) eqn:Hr; cbn [mbind result_bind]; [|discriminate].
  intros [= <-].
  exists h. split; [done|].
  apply save_rows_spec in Hrows as (Hsheet & Hprops & _ & Hrows).
  rewrite Hmax in *. rewrite Hcount in *.
  split.
  - intros Hws. rewrite Hws in Hzero. done.
  - done.
  - by rewrite <- Hret.
  - rewrite Hsheet. unfold is_ti1_ti3 in Hk. subst hbase.
    destruct (kind it8); try discriminate; by destruct (instrument it8).
  - unfold cmsIT8GetProperty. rewrite Hprops. subst hbase.
    unfold cmsIT8SetPropertyDbl. destruct (instrument it8); simpl; by simplify_map_eq.
  - unfold cmsIT8GetProperty. rewrite Hprops. subst hbase.
    unfold cmsIT8SetPropertyDbl. simpl. by simplify_map_eq.
  - unfold cmsIT8GetProperty. rewrite Hprops. subst hbase.
    unfold cmsIT8SetPropertyDbl. simpl. simplify_map_eq.
    unfold average_of. by rewrite HX, HY, HZ, Hcount.
  - unfold cmsIT8GetProperty. rewrite Hprops. subst hbase.
    unfold cmsIT8SetPropertyDbl. simpl. by simplify_map_eq.
  - intros j Hj. apply Hrows. lia.
Qed.

(** The two loops end when every sample has an XYZ colour. *)
Lemma scan_white_total (it8 : CdIt8Private) count : ∀ i st,
  (i + count)%nat = List.length (array_rgb it8) →
  all_xyz_present it8 →
  ∃ st', scan_white it8 i count st = Ok st'.
Proof.
  induction count as [|count IH]; intros i st Hlen Hall; simpl; [eauto|].
  destruct (array_rgb it8 !! i) as [rgb|] eqn:Hrgb.
  2:{ apply lookup_ge_None in Hrgb. lia. }
  destruct (Hall i) as [xyz Hxyz]; [lia|]. rewrite Hxyz.
  destruct (cd_it8_color_match rgb one one one); simpl; apply IH; done || lia.
Qed.

Lemma save_rows_total (it8 : CdIt8Private) nz count : ∀ i h,
  (i + count)%nat = List.length (array_rgb it8) →
  all_xyz_present it8 →
  ∃ h', save_rows it8 nz i count h = Ok h'.
Proof.
  induction count as [|count IH]; intros i h Hlen Hall; simpl; [eauto|].
  destruct (array_rgb it8 !! i) as [rgb|] eqn:Hrgb.
  2:{ apply lookup_ge_None in Hrgb. lia. }
  destruct (Hall i) as [xyz Hxyz]; [lia|]. rewrite Hxyz.
  apply IH; done || lia.
Qed.

(** When a normalized calibration target that has a white reference and a
    nonzero maximum is saved: the file is written if the last sample is
    white for [cd_it8_color_match]; if it is not, the saver returns FALSE
    without an error. *)
Lemma save_normalized_result (it8 : CdIt8Private) :
  is_ti1_ti3 (kind it8) = true →
  normalized it8 = true →
  all_xyz_present it8 →
  white_references it8 ≠ [] →
  running_max zero (white_references it8) ≠ zero →
  if last_match (array_rgb it8) true
  then ∃ file, cd_it8_save it8 = Ok file
  else cd_it8_save it8 = Fail None.
Proof.
  intros Hk Hn Hall Hws Hmax. unfold cd_it8_save. rewrite Hk.
  unfold cd_it8_save_ti1_ti3. rewrite Hn.
  destruct (scan_white_total it8 (List.length (array_rgb it8)) 0 scan_start)
    as [st Hscan]; [done..|].
  rewrite Hscan. apply scan_white_spec in Hscan; [|done].
  rewrite !drop_0 in Hscan. fold (white_references it8) in Hscan. simpl in Hscan.
  destruct Hscan as (Hcount & _ & _ & _ & Hrun & Hret).
  cbn [mbind result_bind].
  rewrite (bool_decide_eq_false_2 (luminance_samples st = 0%nat)).
  2:{ rewrite Hcount. destruct (white_references it8); [done|simpl; lia]. }
  destruct (eqb (normalize st) zero) eqn:Hz.
  { apply eqb_eq in Hz. rewrite Hrun in Hz. done. }
  cbn [mbind result_bind normalize lumi_xyz ret].
  match goal with
  | |- context [save_rows it8 ?nz 0 ?len ?h0] =>
      destruct (save_rows_total it8 nz len 0 h0) as [h Hrows]; [done..|];
      rewrite Hrows
  end.
  cbn [mbind result_bind]. rewrite Hret.
  destruct (last_match (array_rgb it8) true); cbn [mbind result_bind]; eauto.
Qed.

(** A sample that [cd_it8_color_match] takes for white and that has an XYZ
    colour is among the white references of the first loop. *)
Lemma white_xyzs_elem (rgbs : list CdColorRGB) : ∀ xyzs j rgb xyz,
  rgbs !! j = Some rgb →
  xyzs !! j = Some (Some xyz) →
  cd_it8_color_match rgb one one one = true →
  xyz ∈ white_xyzs rgbs xyzs.
Proof.
  induction rgbs as [|r rgbs IH]; intros [|o xyzs] [|j] rgb xyz Hr Hx Hm;
    try discriminate.
  - injection Hr as ->. injection Hx as ->. cbn [white_xyzs]. rewrite Hm.
    apply list_elem_of_here.
  - pose proof (IH xyzs j rgb xyz Hr Hx Hm) as Hin. cbn [white_xyzs].
    destruct (cd_it8_color_match r one one one); [|done].
    destruct o; [|done]. apply elem_of_cons. by right.
Qed.

(** With such a sample of positive Y the first loop counts a white sample
    and ends with a divisor that is not zero. *)
Lemma white_sample_divisor (it8 : CdIt8Private) (j : nat)
    (rgb : CdColorRGB) (xyz : CdColorXYZ) :
  array_rgb it8 !! j = Some rgb →
  array_xyz it8 !! j = Some (Some xyz) →
  cd_it8_color_match rgb one one one = true →
  zero < xyz_Y xyz →
  white_references it8 ≠ [] ∧ running_max zero (white_references it8) ≠ zero.
Proof.
  intros Hr Hx Hm Hpos.
  pose proof (white_xyzs_elem _ _ _ _ _ Hr Hx Hm) as Hin.
  fold (white_references it8) in Hin. split.
  - intros Hnil. rewrite Hnil in Hin. by apply elem_of_nil in Hin.
  - intros H0. pose proof (running_max_upper zero _ _ Hin) as Hup.
    rewrite H0 in Hup. by apply (Qcle_not_lt _ _ Hup).
Qed.

(** C7 (a defect of the code): take a normalized calibration target in
    which every sample has an XYZ colour and some sample is white for
    [cd_it8_color_match] with a positive Y.  That sample is a white
    reference of the specification with a nonzero Y, so the claim promises a
    file with the scaled samples and the averaged luminance.  When the last
    sample of the document is not white, no file is written:
    [cd_it8_save_ti1_ti3] returns [ret], which the first loop has
    overwritten with the white test of every sample, and [cd_it8_save]
    returns FALSE without an error. *)
Theorem C7_white_not_last_not_saved (it8 : CdIt8Private) (j : nat)
    (rgb : CdColorRGB) (xyz : CdColorXYZ) :
  is_ti1_ti3 (kind it8) = true →
  normalized it8 = true →
  all_xyz_present it8 →
  array_rgb it8 !! j = Some rgb →
  array_xyz it8 !! j = Some (Some xyz) →
  cd_it8_color_match rgb one one one = true →
  zero < xyz_Y xyz →
  last_match (array_rgb it8) true = false →
  white_reference rgb ∧ xyz_Y xyz ≠ zero ∧ cd_it8_save it8 = Fail None.
Proof.
  intros Hk Hn Hall Hr Hx Hm Hpos Hlast.
  split; [by apply color_match_white_reference|].
  split; [intros H0; apply (Qclt_not_eq _ _ Hpos); by rewrite H0|].
  destruct (white_sample_divisor it8 j rgb xyz Hr Hx Hm Hpos) as [Hws Hmax].
  pose proof (save_normalized_result it8 Hk Hn Hall Hws Hmax) as Hres.
  by rewrite Hlast in Hres.
Qed.

(** ** Text written by the saver and read by the loader *)

Lemma no_space_app (a b : string) :
  no_space (a ++ b)%string = no_space a && no_space b.
Proof. induction a as [|c a IH]; simpl; [done|]. by rewrite IH, andb_assoc. Qed.

Lemma no_space_string_of_uint (d : Decimal.uint) :
  no_space (NilEmpty.string_of_uint d) = true.
Proof. induction d; simpl; done. Qed.

Lemma no_space_tail (s : string) : no_space s = true → no_space (string_tail s) = true.
Proof. destruct s as [|c s]; simpl; [done|]. by intros [_ H]%andb_prop. Qed.

Lemma no_space_printf_f (v : gdouble) : no_space (printf_f v) = true.
Proof.
  unfold printf_f, string_of_N. rewrite !no_space_app.
  rewrite !no_space_string_of_uint, no_space_tail by apply no_space_string_of_uint.
  by destruct (ltb v zero).
Qed.

Lemma split_spaces_no_space (a : string) : no_space a = true → split_spaces a = [a].
Proof.
  induction a as [|c a IH]; simpl; [done|].
  intros [Hc Ha]%andb_prop. apply negb_true_iff in Hc. rewrite Hc, IH; done.
Qed.

Lemma split_spaces_app (a b : string) :
  no_space a = true →
  split_spaces (a ++ " " ++ b)%string = a :: split_spaces b.
Proof.
  induction a as [|c a IH]; simpl; [done|].
  intros [Hc Ha]%andb_prop. apply negb_true_iff in Hc. rewrite Hc, IH; done.
Qed.

(** The luminance that the saver prints is read back as three numbers. *)
Lemma parse_luminance_printf (x y z : gdouble) :
  cd_it8_parse_luminance (Some (printf_f3 x y z))
  = Ok (mkXYZ (atof (printf_f x)) (atof (printf_f y)) (atof (printf_f z))).
Proof.
  unfold cd_it8_parse_luminance, printf_f3.
  assert (Hs : g_strsplit_space (Some (printf_f x ++ " " ++ printf_f y ++ " " ++ printf_f z)%string)
               = [printf_f x; printf_f y; printf_f z]).
  { transitivity (split_spaces (printf_f x ++ " " ++ printf_f y ++ " " ++ printf_f z)%string).
    - simpl. by destruct (printf_f x).
    - rewrite !split_spaces_app by apply no_space_printf_f.
      by rewrite split_spaces_no_space by apply no_space_printf_f. }
  rewrite Hs. done.
Qed.

Lemma take_digits_string_of_uint (d : Decimal.uint) :
  take_digits (NilEmpty.string_of_uint d) = (d, EmptyString).
Proof. induction d; simpl; rewrite ?IHd; done. Qed.

(** An unsigned integer in decimal reads as that integer. *)
Lemma atof_string_of_N (n : N) : atof (string_of_N n) = of_Z (Z.of_N n).
Proof.
  unfold string_of_N. rewrite <- (DecimalN.Unsigned.of_to n) at 2.
  generalize (N.to_uint n) as d. intros d. unfold atof.
  assert (Hhead : take_sign (skip_spaces (NilEmpty.string_of_uint d))
                  = (false, NilEmpty.string_of_uint d)) by (by destruct d).
  rewrite Hhead, take_digits_string_of_uint. simpl.
  destruct d; try done; unfold of_Z, scale10; simpl Z.sub; cbv iota;
    f_equal; f_equal; lia.
Qed.

Lemma to_guint_of_nat (n : nat) :
  (Z.of_nat n < 4294967296)%Z → to_guint (of_nat n) = Some n.
Proof.
  intros Hn. unfold to_guint, truncate, of_nat.
  assert (Hpos : ltb (of_Z (Z.of_nat n)) zero = false).
  { apply ltb_ge. qc_to_q. apply Qle_bool_iff. unfold Qle_bool. simpl. lia. }
  rewrite Hpos. unfold of_Z, Q2Qc. cbn [this].
  rewrite (Qfloor_comp _ _ (Qred_correct _)), Qfloor_Z.
  rewrite bool_decide_eq_true_2 by lia. by rewrite Nat2Z.id.
Qed.

(** ** Reloading a normalized file *)

Lemma load_rows_rgb (h : cmsHANDLE) (l : CdColorXYZ) count : ∀ i d,
  array_rgb (load_rows h (Some l) i count d)
  = array_rgb d ++ map (row_rgb_div100 h) (seq i count).
Proof.
  induction count as [|count IH]; intros i d; simpl.
  - by rewrite app_nil_r.
  - rewrite IH. simpl. by rewrite <- app_assoc.
Qed.

Lemma map_seq_lookup {A B : Type} (l : list A) (f : nat → B) (g : A → B) : ∀ i,
  (∀ j a, l !! j = Some a → f (i + j)%nat = g a) →
  map f (seq i (List.length l)) = map g l.
Proof.
  induction l as [|a l IH]; intros i Hfg; simpl; [done|].
  rewrite <- (Hfg 0%nat a eq_refl), Nat.add_0_r. f_equal.
  apply IH. intros j b Hj. rewrite <- (Hfg (S j) b Hj). f_equal. lia.
Qed.

(** C10: a normalized calibration target that is saved and loaded again
    has its RGB channels divided by 100: the saver writes them as they are,
    the loader divides them when the file says NORMALIZED_TO_Y_100 "YES".
    (The length of the array is a [guint].) *)
Theorem C10_rgb_divided_on_reload (it8 target : CdIt8Private) (file : GFile) :
  is_ti1_ti3 (kind it8) = true →
  normalized it8 = true →
  (Z.of_nat (List.length (array_rgb it8)) < 4294967296)%Z →
  cd_it8_save it8 = Ok file →
  ∃ loaded,
    cd_it8_load target file = (loaded, Ok tt)
    ∧ array_rgb loaded = map rgb_div100 (array_rgb it8).
Proof.
  intros Hk Hn Hlen Hsave.
  destruct (save_normalized_ok it8 file Hk Hn Hsave) as (h & -> & Hf).
  unfold cd_it8_load, cmsIT8GetSheetType. rewrite (nf_sheet _ _ Hf).
  simpl kind. rewrite Hk. unfold cd_it8_load_ti1_ti3.
  rewrite (nf_color_rep _ _ Hf), (nf_normalized _ _ Hf), (nf_luminance _ _ Hf).
  rewrite parse_luminance_printf. unfold cmsIT8GetPropertyDbl.
  rewrite (nf_sets _ _ Hf), atof_string_of_N, nat_N_Z.
  fold (of_nat (List.length (array_rgb it8))). rewrite (to_guint_of_nat _ Hlen).
  simpl. eexists. split; [reflexivity|]. simpl.
  rewrite load_rows_rgb. simpl. apply map_seq_lookup.
  intros j rgb Hj. simpl.
  destruct (nf_rows _ _ Hf j) as (rgb' & xyz & Hrgb & _ & Hrow).
  { by eapply lookup_lt_Some. }
  assert (rgb' = rgb) as -> by congruence.
  destruct Hrow, rgb. unfold row_rgb_div100, cmsIT8GetDataRowColDbl.
  rewrite row_R0, row_G0, row_B0. done.
Qed.

(** ** Counterexamples *)

(** C4 as stated fails: a document with samples loses them when a load
    fails. *)
Lemma C4_counterexample : ¬ failed_load_changes_nothing scenario_white_last NotIt8.
Proof.
  intros H. specialize (H _ _ eq_refl).
  apply (f_equal (λ d, List.length (array_rgb d))) in H. discriminate H.
Qed.

(** C5 as stated fails: "1.0 abc 2.0" has three pieces, one of them not a
    number; the load goes on, with 0 for the luminance Y. *)
Lemma C5_counterexample : ¬ luminance_must_be_numeric (sheet_with_luminance "1.0 abc 2.0").
Proof.
  intros H. destruct (H ltac:(by repeat split; [exists CD_IT8_KIND_TI3|..]) eq_refl cd_it8_new)
    as (e & He & _).
  vm_compute in He. discriminate He.
Qed.

(** ** The normalized round trip *)

(** The loader never writes the [normalized] flag. *)
Lemma load_keeps_normalized (it8 : CdIt8Private) (file : GFile) :
  normalized (cd_it8_load it8 file).1 = normalized it8.
Proof.
  assert (Hrows : ∀ h l count i d, normalized (load_rows h l i count d) = normalized d).
  { intros h l count. induction count as [|count IH]; intros i d; simpl; [done|].
    by rewrite IH. }
  unfold cd_it8_load. destruct file as [| |h]; try done.
  destruct (kind_of_sheet_type _) as [k|]; [|done].
  set (d := cd_it8_set_kind _ k). change (normalized it8) with (normalized d).
  destruct (is_ti1_ti3 (kind d)).
  - unfold cd_it8_load_ti1_ti3. destruct (negb _); [done|].
    destruct (g_strcmp0_eq _ "YES"); simpl.
    + destruct (cd_it8_parse_luminance _); simpl; try done.
      destruct (to_guint _); simpl; [|done]. by rewrite Hrows.
    + destruct (to_guint _); simpl; [|done]. by rewrite Hrows.
  - destruct (bool_decide (kind d = CD_IT8_KIND_CCMX)); [|done].
    unfold cd_it8_load_ccmx. by destruct (negb _).
Qed.

(** C1, on the scenario of the specification (a white sample of XYZ
    (95, 100, 108.9) and a black one, normalized).  With the white sample
    first the saver returns FALSE, without an error: its return value is the
    answer of the white test on the last sample.  With the white sample last
    the file is written, with NORMALIZED_TO_Y_100 "YES"; loaded into a new
    document it gives [normalized] FALSE, the white sample with XYZ
    (90.25, 100, 118.5921) and RGB (0.01, 0.01, 0.01). *)
Theorem C1_normalized_round_trip_scenario :
  cd_it8_save scenario_white_first = Fail None
  ∧ ∃ h, cd_it8_save scenario_white_last = Ok (It8Text h)
      ∧ cmsIT8GetProperty h "NORMALIZED_TO_Y_100" = Some "YES"
      ∧ cmsIT8GetProperty h "LUMINANCE_XYZ_CDM2"
        = Some "95.000000 100.000000 108.900000"
      ∧ (cd_it8_load cd_it8_new (It8Text h)).2 = Ok tt
      ∧ normalized (cd_it8_load cd_it8_new (It8Text h)).1 = false
      ∧ array_xyz (cd_it8_load cd_it8_new (It8Text h)).1
        = [Some black_xyz;
           Some (mkXYZ (Q2Qc (9025 # 100)) (of_Z 100) (Q2Qc (1185921 # 10000)))]
      ∧ array_rgb (cd_it8_load cd_it8_new (It8Text h)).1
        = [black_rgb; mkRGB (Q2Qc (1 # 100)) (Q2Qc (1 # 100)) (Q2Qc (1 # 100))].
Proof.
  split; [vm_compute; reflexivity|].
  eexists. split; [vm_compute; reflexivity|].
  repeat split; try (vm_compute; reflexivity); compute_done.
Qed.

(** ** The theorems at concrete inputs *)

(** C4 for a document with two samples and a file that is not IT8. *)
Lemma C4_witness :
  cd_it8_load scenario_white_last NotIt8
  = (cd_it8_set_matrix (clear_arrays scenario_white_last) cd_mat33_clear,
     Fail (Some CannotOpen))
  ∧ cleared_by_load NotIt8 scenario_white_last
      (cd_it8_set_matrix (clear_arrays scenario_white_last) cd_mat33_clear).
Proof.
  split; [reflexivity|].
  apply (C4_failed_load_clears scenario_white_last _ NotIt8 (Some CannotOpen)).
  reflexivity.
Defined.

(** C5 for the luminance "1.0 2.0", which has two tokens. *)
Lemma C5_witness :
  normalized_target (sheet_with_luminance "1.0 2.0")
  ∧ (cd_it8_load cd_it8_new (It8Text (sheet_with_luminance "1.0 2.0"))).2
    = Fail (Some (LuminanceFormatInvalid (Some "1.0 2.0"))).
Proof.
  assert (Ht : normalized_target (sheet_with_luminance "1.0 2.0")).
  { split; [exists CD_IT8_KIND_TI3; split; reflexivity | split; reflexivity]. }
  split; [exact Ht|].
  apply (C5_luminance_token_count cd_it8_new (sheet_with_luminance "1.0 2.0") Ht).
  vm_compute. discriminate.
Defined.

Lemma black_not_white_reference : ¬ white_reference black_rgb.
Proof.
  intros [[H _] _]. simpl in H. revert H. qc_to_q. intros H. lra.
Qed.

(** C6 for a document with one black sample. *)
Lemma C6_witness :
  is_ti1_ti3 (kind only_black) = true
  ∧ normalized only_black = true
  ∧ (∀ rgb, rgb ∈ array_rgb only_black → ¬ white_reference rgb)
  ∧ cd_it8_save only_black = Fail (Some NoWhiteSamples)
  ∧ error_kind NoWhiteSamples = NoWhiteSample.
Proof.
  assert (Hno : ∀ rgb, rgb ∈ array_rgb only_black → ¬ white_reference rgb).
  { intros rgb Hin. apply list_elem_of_singleton in Hin as ->.
    exact black_not_white_reference. }
  split; [reflexivity|]. split; [reflexivity|]. split; [exact Hno|].
  apply (C6_no_white_sample only_black); [reflexivity | reflexivity | exact Hno].
Defined.


Lemma two_samples_present (it8 : CdIt8Private) (x y : CdColorXYZ) :
  List.length (array_rgb it8) = 2%nat →
  array_xyz it8 = [Some x; Some y] →
  all_xyz_present it8.
Proof.
  intros Hlen Hxyz j Hj. rewrite Hxyz. rewrite Hlen in Hj.
  destruct j as [|[|j]]; simpl; eauto. lia.
Qed.

Lemma scenario_white_first_present : all_xyz_present scenario_white_first.
Proof. by eapply two_samples_present. Qed.


(** C7 for the scenario of the specification, with the white sample
    first: sample 0 is white with Y = 100, the last sample is black. *)
Lemma C7_witness :
  (is_ti1_ti3 (kind scenario_white_first) = true
   ∧ normalized scenario_white_first = true
   ∧ all_xyz_present scenario_white_first
   ∧ array_rgb scenario_white_first !! 0%nat = Some white_rgb
   ∧ array_xyz scenario_white_first !! 0%nat = Some (Some white_xyz)
   ∧ cd_it8_color_match white_rgb one one one = true
   ∧ zero < xyz_Y white_xyz
   ∧ last_match (array_rgb scenario_white_first) true = false)
  ∧ white_reference white_rgb
  ∧ xyz_Y white_xyz ≠ zero
  ∧ cd_it8_save scenario_white_first = Fail None.
Proof.
  split.
  - split; [reflexivity|]. split; [reflexivity|].
    split; [apply scenario_white_first_present|].
    split; [reflexivity|]. split; [reflexivity|]. split; [reflexivity|].
    split; reflexivity.
  - apply (C7_white_not_last_not_saved scenario_white_first 0 white_rgb white_xyz);
      [reflexivity | reflexivity | apply scenario_white_first_present
      | reflexivity | reflexivity | reflexivity | reflexivity | reflexivity].
Defined.

(** C8 for two calls on a new document, each with one argument absent. *)
Lemma C8_witness :
  reachable cd_it8_new
  ∧ List.length
      (array_rgb (add_samples cd_it8_new [(Some white_rgb, None); (None, Some white_xyz)]))
    = List.length
        (array_xyz (add_samples cd_it8_new [(Some white_rgb, None); (None, Some white_xyz)])).
Proof.
  split; [apply reach_new|].
  apply (C8_alignment_invariant cd_it8_new). apply reach_new.
Defined.

(** C9 for a matrix with fractional and negative entries. *)
Lemma C9_witness :
  kind some_ccmx = CD_IT8_KIND_CCMX
  ∧ ∃ file loaded,
      cd_it8_save some_ccmx = Ok file
      ∧ cd_it8_load cd_it8_new file = (loaded, Ok tt)
      ∧ kind loaded = CD_IT8_KIND_CCMX
      ∧ matrix loaded = matrix some_ccmx.
Proof.
  split; [reflexivity|]. apply (C9_matrix_round_trip some_ccmx cd_it8_new). reflexivity.
Defined.

(** C10 for the scenario with the white sample last. *)
Lemma C10_witness :
  ∃ file,
    (is_ti1_ti3 (kind scenario_white_last) = true
     ∧ normalized scenario_white_last = true
     ∧ (Z.of_nat (List.length (array_rgb scenario_white_last)) < 4294967296)%Z
     ∧ cd_it8_save scenario_white_last = Ok file)
    ∧ ∃ loaded,
        cd_it8_load cd_it8_new file = (loaded, Ok tt)
        ∧ array_rgb loaded = map rgb_div100 (array_rgb scenario_white_last).
Proof.
  assert (Hsave : ∃ file, cd_it8_save scenario_white_last = Ok file).
  { eexists. vm_compute. reflexivity. }
  destruct Hsave as [file Hsave]. exists file.
  split.
  - split; [reflexivity|]. split; [reflexivity|]. split; [reflexivity | exact Hsave].
  - apply (C10_rgb_divided_on_reload scenario_white_last cd_it8_new file);
      [reflexivity | reflexivity | reflexivity | exact Hsave].
Defined.

(** * Further properties of the loader, the saver and the document *)

(** ** The loader *)

(** The loop of the loader appends one RGB and one XYZ per row and touches
    nothing else. *)
Lemma load_rows_eq (h : cmsHANDLE) luminance count : ∀ i d,
  load_rows h luminance i count d
  = mkIt8 (kind d) (matrix d) (normalized d) (spectral d) (instrument d)
      (reference d) (originator d)
      (array_rgb d ++ map (row_rgb h luminance) (seq i count))
      (array_xyz d ++ map (λ j, Some (row_xyz h luminance j)) (seq i count)).
Proof.
  induction count as [|count IH]; intros i d; simpl.
  - rewrite !app_nil_r. by destruct d.
  - rewrite IH. simpl. rewrite <- !app_assoc. simpl.
    unfold row_rgb, row_xyz, rgb_div100. by destruct luminance.
Qed.

(** What [cd_it8_load] returns FALSE with is always an error that it has
    set, and the only way it leaves the model is the conversion of
    NUMBER_OF_SETS to a [guint]: it reads no array. *)
Theorem load_failure_has_error (it8 : CdIt8Private) (file : GFile) :
  (∀ e, (cd_it8_load it8 file).2 = Fail e → ∃ err, e = Some err)
  ∧ (∀ w, (cd_it8_load it8 file).2 = Wrong w → w = BadConversion).
Proof.
  unfold cd_it8_load. destruct file as [| |h]; simpl.
  1, 2: split; [intros e [= <-]; eauto | discriminate].
  destruct (kind_of_sheet_type _) as [k|]; simpl.
  2:{ split; [intros e [= <-]; eauto | discriminate]. }
  destruct (is_ti1_ti3 k).
  - unfold cd_it8_load_ti1_ti3. destruct (negb _); simpl.
    { split; [intros e [= <-]; eauto | discriminate]. }
    destruct (g_strcmp0_eq _ "YES"); simpl.
    + unfold cd_it8_parse_luminance. case_bool_decide; simpl.
      { split; [intros e [= <-]; eauto | discriminate]. }
      destruct (to_guint _); simpl; split; try discriminate. by intros w [= <-].
    + destruct (to_guint _); simpl; split; try discriminate. by intros w [= <-].
  - destruct (bool_decide (k = CD_IT8_KIND_CCMX)); simpl.
    + unfold cd_it8_load_ccmx. destruct (negb _); simpl.
      * split; [intros e [= <-]; eauto | discriminate].
      * split; discriminate.
    + split; discriminate.
Qed.

Lemma kind_of_sheet_type_cases tmp k :
  kind_of_sheet_type tmp = Some k →
  (is_ti1_ti3 k = true ∧ k ≠ CD_IT8_KIND_CCMX)
  ∨ (is_ti1_ti3 k = false ∧ k = CD_IT8_KIND_CCMX).
Proof.
  unfold kind_of_sheet_type.
  repeat (destruct (g_str_has_prefix tmp _)); intros [= <-]; auto.
Qed.

(** After a load that succeeded the document holds one payload: a
    correction matrix and no sample, or samples and the zero matrix; its
    kind is the one of the sheet type, never the unknown kind. *)
Theorem load_ok_single_payload (it8 loaded : CdIt8Private) (file : GFile) :
  cd_it8_load it8 file = (loaded, Ok tt) →
  (kind loaded = CD_IT8_KIND_CCMX ∧ array_rgb loaded = [] ∧ array_xyz loaded = [])
  ∨ (is_ti1_ti3 (kind loaded) = true ∧ matrix loaded = cd_mat33_clear).
Proof.
  unfold cd_it8_load. destruct file as [| |h]; try discriminate.
  destruct (kind_of_sheet_type _) as [k|] eqn:Hk; [|discriminate].
  apply kind_of_sheet_type_cases in Hk as [[Hti Hk]|[Hti ->]]; simpl kind; rewrite Hti.
  - unfold cd_it8_load_ti1_ti3. destruct (negb _); [discriminate|].
    destruct (g_strcmp0_eq _ "YES"); simpl.
    + destruct (cd_it8_parse_luminance _); simpl; try discriminate.
      destruct (to_guint _); simpl; [|discriminate].
      intros [= <-]. right. rewrite load_rows_eq. simpl. done.
    + destruct (to_guint _); simpl; [|discriminate].
      intros [= <-]. right. rewrite load_rows_eq. simpl. done.
  - simpl. unfold cd_it8_load_ccmx. destruct (negb _); [discriminate|].
    intros [= <-]. left. done.
Qed.

(** A calibration target that loads has as many samples as NUMBER_OF_SETS
    says (none when the property is absent), in both arrays, and no NULL
    entry; the rows are not counted. *)
Theorem load_ok_sample_count (it8 loaded : CdIt8Private) (h : cmsHANDLE) :
  cd_it8_load it8 (It8Text h) = (loaded, Ok tt) →
  is_ti1_ti3 (kind loaded) = true →
  to_guint (cmsIT8GetPropertyDbl h "NUMBER_OF_SETS") = Some (cd_it8_get_data_size loaded)
  ∧ List.length (array_rgb loaded) = cd_it8_get_data_size loaded
  ∧ (∀ j, (j < cd_it8_get_data_size loaded)%nat →
       ∃ xyz, array_xyz loaded !! j = Some (Some xyz)).
Proof.
  assert (Hmap : ∀ (f : nat → CdColorXYZ) n j, (j < n)%nat →
    ∃ xyz, map (λ j, Some (f j)) (seq 0 n) !! j = Some (Some xyz)).
  { intros f n j Hj. exists (f j).
    change (map ?f ?x) with (f <$> x). rewrite list_lookup_fmap, lookup_seq_lt by done.
    done. }
  unfold cd_it8_load, cd_it8_get_data_size, cmsIT8GetSheetType.
  destruct (kind_of_sheet_type _) as [k|] eqn:Hk; [|discriminate].
  apply kind_of_sheet_type_cases in Hk as [[Hti Hk]|[Hti ->]]; simpl kind; rewrite Hti.
  - unfold cd_it8_load_ti1_ti3. destruct (negb _); [discriminate|].
    destruct (g_strcmp0_eq _ "YES"); simpl.
    + destruct (cd_it8_parse_luminance _); simpl; try discriminate.
      destruct (to_guint _) as [n|]; simpl; [|discriminate].
      intros [= <-] _. rewrite load_rows_eq. simpl.
      rewrite !length_map, !length_seq. split; [done|]. split; [done|].
      intros j Hj. by apply Hmap.
    + destruct (to_guint _) as [n|]; simpl; [|discriminate].
      intros [= <-] _. rewrite load_rows_eq. simpl.
      rewrite !length_map, !length_seq. split; [done|]. split; [done|].
      intros j Hj. by apply Hmap.
  - simpl. unfold cd_it8_load_ccmx. destruct (negb _); [discriminate|].
    intros [= <-]. simpl. discriminate.
Qed.

(** Loading a file into a document that was already loaded from it changes
    nothing: the samples of the first load are dropped, not doubled, and
    the outcome is the same. *)
Theorem load_twice (it8 : CdIt8Private) (file : GFile) :
  cd_it8_load (cd_it8_load it8 file).1 file = cd_it8_load it8 file.
Proof.
  unfold cd_it8_load. destruct file as [| |h]; try reflexivity.
  destruct (kind_of_sheet_type _) as [k|] eqn:Hk; [|reflexivity].
  apply kind_of_sheet_type_cases in Hk as [[Hti Hk]|[Hti ->]]; simpl kind; rewrite Hti.
  - unfold cd_it8_load_ti1_ti3. destruct (negb _); [reflexivity|].
    destruct (g_strcmp0_eq _ "YES"); simpl.
    + destruct (cd_it8_parse_luminance _); simpl; try reflexivity.
      destruct (to_guint _); simpl; [|reflexivity].
      rewrite !load_rows_eq. reflexivity.
    + destruct (to_guint _); simpl; [|reflexivity].
      rewrite !load_rows_eq. reflexivity.
  - simpl. unfold cd_it8_load_ccmx. destruct (negb _); reflexivity.
Qed.

(** ** The saver *)

(** The value of a key in a chain of insertions. *)
Ltac lookup_inserted :=
  repeat first [rewrite lookup_insert_eq | rewrite lookup_insert_ne by discriminate].

(** Every file that [cd_it8_save] writes for a calibration target has the
    header of the format and the rows of the samples. *)
Lemma save_target_file (it8 : CdIt8Private) (file : GFile) :
  is_ti1_ti3 (kind it8) = true →
  cd_it8_save it8 = Ok file →
  ∃ h nz, file = It8Text h ∧ target_file it8 nz h.
Proof.
  intros Hk. unfold cd_it8_save. rewrite Hk. unfold cd_it8_save_ti1_ti3.
  assert (Hst : ∃ st : result white_scan,
    st = (if normalized it8 then
            st ← scan_white it8 0 (List.length (array_rgb it8)) scan_start;
            if bool_decide (luminance_samples st = 0%nat) then
              Fail (Some NoWhiteSamples)
            else
              if eqb (normalize st) zero then Wrong NonFinite
              else Ok (mkScan (ret st) (luminance_samples st)
                         (mkXYZ (xyz_X (lumi_xyz st) / of_nat (luminance_samples st))
                                (xyz_Y (lumi_xyz st) / of_nat (luminance_samples st))
                                (xyz_Z (lumi_xyz st) / of_nat (luminance_samples st)))
                         (hundred / normalize st))
          else Ok scan_start)) by eauto.
  destruct Hst as [[st| |] Hst]; rewrite <- Hst; cbn [mbind result_bind];
    try discriminate.
  match goal with
  | |- context [save_rows it8 ?nz 0 ?len ?h0] =>
      set (hbase := h0) in *;
      destruct (save_rows it8 nz 0 len hbase) as [h| |] eqn:Hrows;
      cbn [mbind result_bind]; try discriminate
  end.
  destruct (ret st); cbn [mbind result_bind]; [|discriminate].
  intros [= <-]. exists h, (normalize st). split; [done|].
  apply save_rows_spec in Hrows as (Hsheet & Hprops & _ & Hrows).
  split.
  - rewrite Hsheet. unfold is_ti1_ti3 in Hk. subst hbase.
    destruct (kind it8); try discriminate;
      destruct (instrument it8), (normalized it8); done.
  - unfold cmsIT8GetProperty. rewrite Hprops. subst hbase.
    unfold cmsIT8SetPropertyDbl.
    destruct (instrument it8), (normalized it8); simpl; by lookup_inserted.
  - unfold cmsIT8GetProperty. rewrite Hprops. subst hbase.
    unfold cmsIT8SetPropertyDbl. destruct (normalized it8); simpl; by lookup_inserted.
  - unfold cmsIT8GetProperty. rewrite Hprops. subst hbase.
    unfold cmsIT8SetPropertyDbl. destruct (normalized it8); simpl; by lookup_inserted.
  - unfold cmsIT8GetProperty. rewrite Hprops. subst hbase.
    unfold cmsIT8SetPropertyDbl. simpl. by lookup_inserted.
  - unfold cmsIT8GetProperty. rewrite Hprops. subst hbase.
    unfold cmsIT8SetPropertyDbl. simpl. by lookup_inserted.
  - intros j Hj. apply Hrows. lia.
Qed.

(** A calibration target that is saved declares seven fields and as many
    sets as it has samples, numbers the rows from 1, and writes the RGB of
    every sample as it is, normalized or not. *)
Theorem save_target_rows (it8 : CdIt8Private) (h : cmsHANDLE) :
  is_ti1_ti3 (kind it8) = true →
  cd_it8_save it8 = Ok (It8Text h) →
  cmsIT8GetProperty h "NUMBER_OF_FIELDS" = Some "7"
  ∧ cmsIT8GetPropertyDbl h "NUMBER_OF_SETS" = of_nat (List.length (array_rgb it8))
  ∧ ∀ j rgb, array_rgb it8 !! j = Some rgb →
      cmsIT8GetDataRowColDbl h j 0 = of_nat (j + 1)
      ∧ cmsIT8GetDataRowColDbl h j 1 = rgb_R rgb
      ∧ cmsIT8GetDataRowColDbl h j 2 = rgb_G rgb
      ∧ cmsIT8GetDataRowColDbl h j 3 = rgb_B rgb.
Proof.
  intros Hk Hsave.
  destruct (save_target_file it8 _ Hk Hsave) as (h' & nz & [= <-] & Hf).
  split; [apply (tf_fields _ _ _ Hf)|]. split.
  - unfold cmsIT8GetPropertyDbl. rewrite (tf_sets _ _ _ Hf), atof_string_of_N, nat_N_Z.
    done.
  - intros j rgb Hrgb.
    destruct (tf_rows _ _ _ Hf j) as (rgb' & xyz & Hrgb' & _ & Hrow).
    { by eapply lookup_lt_Some. }
    assert (rgb' = rgb) as -> by congruence.
    destruct Hrow as [Hid HR HG HB _ _ _]. unfold cmsIT8GetDataRowColDbl.
    rewrite Hid, HR, HG, HB. done.
Qed.

(** A calibration target that is not normalized, has an XYZ colour for
    every sample and fewer than 2^32 samples is saved, and loads again with
    the same kind, the same spectral flag and the same samples. *)
Theorem plain_round_trip (it8 target : CdIt8Private) :
  is_ti1_ti3 (kind it8) = true →
  normalized it8 = false →
  aligned it8 →
  all_xyz_present it8 →
  (Z.of_nat (List.length (array_rgb it8)) < 4294967296)%Z →
  ∃ file loaded,
    cd_it8_save it8 = Ok file
    ∧ cd_it8_load target file = (loaded, Ok tt)
    ∧ kind loaded = kind it8
    ∧ spectral loaded = spectral it8
    ∧ array_rgb loaded = array_rgb it8
    ∧ array_xyz loaded = array_xyz it8.
Proof.
  intros Hk Hn Hal Hall Hlen.
  assert (Hsave : ∃ file, cd_it8_save it8 = Ok file).
  { unfold cd_it8_save. rewrite Hk. unfold cd_it8_save_ti1_ti3. rewrite Hn.
    cbn [mbind result_bind normalize scan_start].
    match goal with
    | |- context [save_rows it8 ?nz 0 ?len ?h0] =>
        destruct (save_rows_total it8 nz len 0 h0) as [h Hrows]; [done..|];
        rewrite Hrows
    end. cbn [mbind result_bind ret]. eauto. }
  destruct Hsave as [file Hsave]. exists file.
  destruct (save_target_file it8 _ Hk Hsave) as (h & nz & -> & Hf).
  unfold cd_it8_load, cmsIT8GetSheetType. rewrite (tf_sheet _ _ _ Hf).
  simpl kind. rewrite Hk. unfold cd_it8_load_ti1_ti3.
  rewrite (tf_color_rep _ _ _ Hf), (tf_normalized _ _ _ Hf), (tf_spectral _ _ _ Hf), Hn.
  unfold cmsIT8GetPropertyDbl.
  rewrite (tf_sets _ _ _ Hf), atof_string_of_N, nat_N_Z.
  fold (of_nat (List.length (array_rgb it8))). rewrite (to_guint_of_nat _ Hlen).
  simpl. rewrite load_rows_eq. simpl.
  eexists. split; [done|]. split; [reflexivity|]. simpl.
  split; [done|]. split; [by destruct (spectral it8)|].
  assert (Hrow : ∀ j rgb xyz,
    array_rgb it8 !! j = Some rgb → array_xyz it8 !! j = Some (Some xyz) →
    row_rgb h None j = rgb ∧ row_xyz h None j = xyz).
  { intros j rgb xyz Hrgb Hxyz.
    destruct (tf_rows _ _ _ Hf j) as (rgb' & xyz' & Hrgb' & Hxyz' & Hrow).
    { by eapply lookup_lt_Some. }
    assert (rgb' = rgb) as -> by congruence.
    assert (xyz' = xyz) as -> by congruence.
    destruct Hrow as [_ HR HG HB HX HY HZ]. destruct rgb, xyz.
    unfold row_rgb, row_xyz, cmsIT8GetDataRowColDbl.
    rewrite HR, HG, HB, HX, HY, HZ, Hn. done. }
  split.
  - transitivity (map id (array_rgb it8)); [|apply map_id]. apply map_seq_lookup.
    intros j rgb Hrgb. simpl.
    destruct (Hall j) as [xyz Hxyz]; [by eapply lookup_lt_Some|].
    exact (proj1 (Hrow j rgb xyz Hrgb Hxyz)).
  - unfold aligned in Hal. rewrite Hal.
    transitivity (map id (array_xyz it8)); [|apply map_id]. apply map_seq_lookup.
    intros j oxyz Hxyz. simpl.
    assert (Hj : (j < List.length (array_rgb it8))%nat).
    { rewrite Hal. by eapply lookup_lt_Some. }
    destruct (Hall j Hj) as [xyz Hxyz'].
    destruct (lookup_lt_is_Some_2 (array_rgb it8) j Hj) as [rgb Hrgb].
    assert (oxyz = Some xyz) as -> by congruence.
    f_equal. exact (proj2 (Hrow j rgb xyz Hrgb Hxyz')).
Qed.

(** A document whose kind was never set is saved without an error, as a
    sheet of lcms2's default type, which the loader then refuses. *)
Theorem unknown_kind_saved_not_loaded (it8 target : CdIt8Private) :
  kind it8 = CD_IT8_KIND_UNKNOWN →
  ∃ h, cd_it8_save it8 = Ok (It8Text h)
       ∧ SheetType h = "CGATS.17"
       ∧ (cd_it8_load target (It8Text h)).2 = Fail (Some (InvalidSheetType "CGATS.17"))
       ∧ error_kind (InvalidSheetType "CGATS.17") = UnknownVariant.
Proof.
  intros Hk. unfold cd_it8_save. rewrite Hk. simpl.
  eexists. split; [reflexivity|].
  destruct (originator it8), (reference it8); simpl; done.
Qed.

(** The second loop stops at the first sample whose XYZ entry is NULL. *)
Lemma save_rows_null (it8 : CdIt8Private) nz count : ∀ i h,
  aligned it8 →
  (i + count)%nat = List.length (array_rgb it8) →
  (∃ j, (i ≤ j)%nat ∧ array_xyz it8 !! j = Some None) →
  save_rows it8 nz i count h = Wrong NullPointer.
Proof.
  unfold aligned.
  induction count as [|count IH]; intros i h Hal Hlen (j & Hij & Hj); simpl.
  - apply lookup_lt_Some in Hj. lia.
  - destruct (array_rgb it8 !! i) as [rgb|] eqn:Hrgb.
    2:{ apply lookup_ge_None in Hrgb. lia. }
    destruct (array_xyz it8 !! i) as [[xyz|]|] eqn:Hxyz.
    + apply IH; [done|lia|]. exists j. split; [|done].
      destruct (decide (j = i)) as [->|]; [congruence|lia].
    + done.
    + apply lookup_ge_None in Hxyz. lia.
Qed.

Lemma save_rows_not_fail (it8 : CdIt8Private) nz count : ∀ i h e,
  save_rows it8 nz i count h ≠ Fail e.
Proof.
  induction count as [|count IH]; intros i h e; simpl; [done|].
  destruct (array_rgb it8 !! i); [|done].
  destruct (array_xyz it8 !! i) as [[xyz|]|]; try done.
Qed.

(** The saver of a calibration target that is not normalized never returns
    FALSE: it writes the file when every sample has an XYZ colour, and
    dereferences NULL when an entry of the XYZ array is NULL. *)
Theorem plain_save_outcome (it8 : CdIt8Private) :
  is_ti1_ti3 (kind it8) = true →
  normalized it8 = false →
  aligned it8 →
  (∀ e, cd_it8_save it8 ≠ Fail e)
  ∧ (all_xyz_present it8 → ∃ file, cd_it8_save it8 = Ok file)
  ∧ ((∃ j, array_xyz it8 !! j = Some None) → cd_it8_save it8 = Wrong NullPointer).
Proof.
  intros Hk Hn Hal. unfold cd_it8_save. rewrite Hk. unfold cd_it8_save_ti1_ti3.
  rewrite Hn. cbn [mbind result_bind normalize scan_start ret].
  match goal with
  | |- context [save_rows it8 ?nz 0 ?len ?h0] => set (hbase := h0); set (n0 := nz)
  end.
  split; [|split].
  - intros e. destruct (save_rows it8 n0 0 (List.length (array_rgb it8)) hbase) eqn:Hrows;
      cbn [mbind result_bind]; try done.
    by apply save_rows_not_fail in Hrows.
  - intros Hall. destruct (save_rows_total it8 n0 (List.length (array_rgb it8)) 0 hbase)
      as [h ->]; [done..|].
    cbn [mbind result_bind]. eauto.
  - intros (j & Hj). rewrite (save_rows_null it8 n0 (List.length (array_rgb it8)) 0 hbase); [done..|].
    exists j. split; [lia|done].
Qed.

(** ** More on the loader *)

(** The COLOR_REP of a sheet decides whether its kind of data is read: a
    calibration target needs "RGB_XYZ" and a correction matrix "XYZ"; any
    other value, or no value, fails with the error of the data format. *)
Theorem load_color_rep (it8 : CdIt8Private) (h : cmsHANDLE) (k : CdIt8Kind) :
  kind_of_sheet_type (SheetType h) = Some k →
  let rep := cmsIT8GetProperty h "COLOR_REP" in
  (is_ti1_ti3 k = true → rep ≠ Some "RGB_XYZ" →
     (cd_it8_load it8 (It8Text h)).2 = Fail (Some (InvalidDataFormat rep)))
  ∧ (k = CD_IT8_KIND_CCMX → rep ≠ Some "XYZ" →
     (cd_it8_load it8 (It8Text h)).2 = Fail (Some (InvalidCcmxDataFormat rep)))
  ∧ (k = CD_IT8_KIND_CCMX → rep = Some "XYZ" →
     (cd_it8_load it8 (It8Text h)).2 = Ok tt).
Proof.
  intros Hk rep. unfold cd_it8_load, cmsIT8GetSheetType. rewrite Hk. simpl kind.
  split; [|split].
  - intros Hti Hrep. rewrite Hti. unfold cd_it8_load_ti1_ti3, g_strcmp0_eq.
    fold rep. by rewrite bool_decide_eq_false_2.
  - intros -> Hrep. simpl. unfold cd_it8_load_ccmx, g_strcmp0_eq.
    fold rep. by rewrite bool_decide_eq_false_2.
  - intros -> Hrep. simpl. unfold cd_it8_load_ccmx, g_strcmp0_eq.
    fold rep. by rewrite bool_decide_eq_true_2.
Qed.

(** The outcome of a load, the samples and the matrix it leaves depend on
    the file alone, not on what the document held; when the load succeeds
    the same holds of the kind, the instrument, the originator and the
    reference. *)
Theorem load_depends_on_file (it8 it8' : CdIt8Private) (file : GFile) :
  (cd_it8_load it8 file).2 = (cd_it8_load it8' file).2
  ∧ array_rgb (cd_it8_load it8 file).1 = array_rgb (cd_it8_load it8' file).1
  ∧ array_xyz (cd_it8_load it8 file).1 = array_xyz (cd_it8_load it8' file).1
  ∧ matrix (cd_it8_load it8 file).1 = matrix (cd_it8_load it8' file).1
  ∧ ((cd_it8_load it8 file).2 = Ok tt →
     kind (cd_it8_load it8 file).1 = kind (cd_it8_load it8' file).1
     ∧ instrument (cd_it8_load it8 file).1 = instrument (cd_it8_load it8' file).1
     ∧ originator (cd_it8_load it8 file).1 = originator (cd_it8_load it8' file).1
     ∧ reference (cd_it8_load it8 file).1 = reference (cd_it8_load it8' file).1).
Proof.
  unfold cd_it8_load. destruct file as [| |h]; simpl; [done..|].
  destruct (kind_of_sheet_type _) as [k|] eqn:Hk; simpl; [|done].
  apply kind_of_sheet_type_cases in Hk as [[Hti Hk]|[Hti ->]]; rewrite Hti.
  - unfold cd_it8_load_ti1_ti3. destruct (negb _); simpl; [done|].
    destruct (g_strcmp0_eq _ "YES"); simpl.
    + destruct (cd_it8_parse_luminance _); simpl; try done.
      destruct (to_guint _); simpl; [|done]. rewrite !load_rows_eq. done.
    + destruct (to_guint _); simpl; [|done]. rewrite !load_rows_eq. done.
  - simpl. unfold cd_it8_load_ccmx. destruct (negb _); done.
Qed.

(** The text of a successful load: originator and reference are the
    properties of the file, NULL when the file has none; the instrument is
    TARGET_INSTRUMENT in a calibration target and INSTRUMENT in a correction
    matrix; the spectral flag is read from a calibration target and left as
    it was by a correction matrix. *)
Theorem load_ok_metadata (it8 loaded : CdIt8Private) (h : cmsHANDLE) :
  cd_it8_load it8 (It8Text h) = (loaded, Ok tt) →
  originator loaded = cmsIT8GetProperty h "ORIGINATOR"
  ∧ reference loaded = cmsIT8GetProperty h "REFERENCE"
  ∧ (is_ti1_ti3 (kind loaded) = true →
     instrument loaded = cmsIT8GetProperty h "TARGET_INSTRUMENT"
     ∧ spectral loaded
       = bool_decide (cmsIT8GetProperty h "INSTRUMENT_TYPE_SPECTRAL" = Some "YES"))
  ∧ (kind loaded = CD_IT8_KIND_CCMX →
     instrument loaded = cmsIT8GetProperty h "INSTRUMENT"
     ∧ spectral loaded = spectral it8).
Proof.
  unfold cd_it8_load, cmsIT8GetSheetType.
  destruct (kind_of_sheet_type _) as [k|] eqn:Hk; [|discriminate].
  apply kind_of_sheet_type_cases in Hk as [[Hti Hk]|[Hti ->]]; simpl kind; rewrite Hti.
  - unfold cd_it8_load_ti1_ti3. destruct (negb _); [discriminate|].
    destruct (g_strcmp0_eq _ "YES"); simpl.
    + destruct (cd_it8_parse_luminance _); simpl; try discriminate.
      destruct (to_guint _); simpl; [|discriminate].
      intros [= <-]. rewrite load_rows_eq. simpl. done.
    + destruct (to_guint _); simpl; [|discriminate].
      intros [= <-]. rewrite load_rows_eq. simpl. done.
  - simpl. unfold cd_it8_load_ccmx. destruct (negb _); [discriminate|].
    intros [= <-]. simpl. done.
Qed.

(** A correction matrix sheet with COLOR_REP "XYZ" always loads: no row
    count is looked at, and a sheet without cells gives the zero matrix. *)
Theorem load_ccmx_without_cells (it8 : CdIt8Private) (h : cmsHANDLE) :
  kind_of_sheet_type (SheetType h) = Some CD_IT8_KIND_CCMX →
  cmsIT8GetProperty h "COLOR_REP" = Some "XYZ" →
  Data h = ∅ →
  (cd_it8_load it8 (It8Text h)).2 = Ok tt
  ∧ matrix (cd_it8_load it8 (It8Text h)).1 = cd_mat33_clear.
Proof.
  intros Hk Hrep Hdata. unfold cd_it8_load, cmsIT8GetSheetType. rewrite Hk. simpl.
  unfold cd_it8_load_ccmx. rewrite Hrep. simpl.
  unfold cmsIT8GetDataRowColDbl. rewrite Hdata, !lookup_empty. done.
Qed.

(** ** More on the document model *)

(** Every call of [cd_it8_add_data] makes the document one sample larger,
    whatever its arguments are. *)
Theorem add_samples_size (it8 : CdIt8Private)
    (calls : list (option CdColorRGB * option CdColorXYZ)) :
  cd_it8_get_data_size (add_samples it8 calls)
  = (cd_it8_get_data_size it8 + List.length calls)%nat.
Proof.
  revert it8. induction calls as [|[rgb xyz] calls IH]; intros it8; simpl.
  - lia.
  - rewrite IH. unfold cd_it8_get_data_size.
    destruct (add_data_arrays it8 rgb xyz) as (c & x & _ & ->).
    rewrite length_app. simpl. lia.
Qed.

(** In a document whose arrays have the same length, a sample that is added
    with both colours is read back at the index that was the size, and the
    samples before it are read as before. *)
Theorem get_added_sample (it8 : CdIt8Private) (rgb : CdColorRGB) (xyz : CdColorXYZ) :
  aligned it8 →
  cd_it8_get_data_item (cd_it8_add_data it8 (Some rgb) (Some xyz))
    (cd_it8_get_data_size it8) true true = Ok (Some rgb, Some xyz)
  ∧ ∀ idx want_rgb want_xyz, (idx < cd_it8_get_data_size it8)%nat →
      cd_it8_get_data_item (cd_it8_add_data it8 (Some rgb) (Some xyz))
        idx want_rgb want_xyz
      = cd_it8_get_data_item it8 idx want_rgb want_xyz.
Proof.
  unfold aligned, cd_it8_get_data_size, cd_it8_get_data_item. intros Hal. simpl.
  rewrite !length_app. simpl. split.
  - rewrite bool_decide_eq_false_2 by lia.
    rewrite <- Hal at 1. rewrite !list_lookup_middle by done. done.
  - intros idx want_rgb want_xyz Hidx.
    rewrite !bool_decide_eq_false_2 by lia.
    rewrite !lookup_app_l by lia. done.
Qed.

(** In a document whose arrays have the same length, every index below the
    size gives TRUE and the colours stored at it; nothing is read past the
    arrays. *)
Theorem get_data_item_in_range (it8 : CdIt8Private) (idx : nat) :
  aligned it8 →
  (idx < cd_it8_get_data_size it8)%nat →
  ∃ rgb oxyz, array_rgb it8 !! idx = Some rgb
              ∧ array_xyz it8 !! idx = Some oxyz
              ∧ cd_it8_get_data_item it8 idx true true = Ok (Some rgb, oxyz).
Proof.
  unfold aligned, cd_it8_get_data_size, cd_it8_get_data_item. intros Hal Hidx.
  destruct (lookup_lt_is_Some_2 (array_rgb it8) idx) as [rgb Hrgb]; [lia|].
  destruct (lookup_lt_is_Some_2 (array_xyz it8) idx) as [oxyz Hxyz]; [lia|].
  exists rgb, oxyz. rewrite bool_decide_eq_false_2 by lia. rewrite Hrgb, Hxyz. done.
Qed.

(** ** More on the luminance text *)

Lemma split_spaces_length (s : string) :
  List.length (split_spaces s) = S (count_spaces s).
Proof.
  induction s as [|c s IH]; simpl; [done|].
  destruct (Ascii.eqb c " "); simpl; [by rewrite IH|].
  destruct (split_spaces s); simpl in *; [done|lia].
Qed.

(** [cd_it8_parse_luminance] accepts a text exactly when it is there and
    has two spaces in all: a doubled, leading or trailing space makes a
    fourth, empty piece and the text is refused. *)
Theorem parse_luminance_two_spaces (text : option string) :
  (∃ l, cd_it8_parse_luminance text = Ok l)
  ↔ ∃ s, text = Some s ∧ count_spaces s = 2%nat.
Proof.
  unfold cd_it8_parse_luminance, g_strv_length. split.
  - intros [l Hl]. case_bool_decide as Hlen; [discriminate|].
    destruct text as [s|]; [|discriminate Hlen].
    exists s. split; [done|]. destruct s as [|c s]; [discriminate Hlen|].
    unfold g_strsplit_space in Hlen. rewrite split_spaces_length in Hlen. lia.
  - intros (s & -> & Hs). destruct s as [|c s]; [discriminate Hs|].
    unfold g_strsplit_space. rewrite bool_decide_eq_false_2; [eauto|].
    rewrite split_spaces_length. lia.
Qed.

(** ** More on the white test *)

(** [cd_it8_color_match] accepts a colour exactly when each channel is
    within [0.01f] of the channel asked for, both ends included. *)
Theorem color_match_iff (rgb : CdColorRGB) (r g b : gdouble) :
  cd_it8_color_match rgb r g b = true
  ↔ (r - float_0_01 <= rgb_R rgb ∧ rgb_R rgb <= r + float_0_01)
    ∧ (g - float_0_01 <= rgb_G rgb ∧ rgb_G rgb <= g + float_0_01)
    ∧ (b - float_0_01 <= rgb_B rgb ∧ rgb_B rgb <= b + float_0_01).
Proof.
  assert (Hch : ∀ c t : gdouble,
    ltb float_0_01 (ABS (c - t)) = false
    ↔ (t - float_0_01 <= c ∧ c <= t + float_0_01)).
  { intros c t. rewrite ltb_ge. unfold ABS.
    destruct (ltb (c - t) zero) eqn:E; [apply ltb_lt in E | apply ltb_ge in E];
      qc_to_q; split; intros; try split; lra. }
  unfold cd_it8_color_match.
  destruct (ltb _ (ABS (rgb_R rgb - r))) eqn:ER.
  { split; [discriminate|]. intros [HR _]. apply Hch in HR. congruence. }
  destruct (ltb _ (ABS (rgb_G rgb - g))) eqn:EG.
  { split; [discriminate|]. intros (_ & HG & _). apply Hch in HG. congruence. }
  destruct (ltb _ (ABS (rgb_B rgb - b))) eqn:EB.
  { split; [discriminate|]. intros (_ & _ & HB). apply Hch in HB. congruence. }
  split; [|done]. intros _. by rewrite <- !Hch.
Qed.

(** ** More on the normalized round trip *)

(** A normalized calibration target that is saved loads again, and every
    XYZ comes back scaled channel by channel: X by (100 / max_Y) / 100 times
    the X of the luminance that is read from the file, and so for Y and Z. *)
Theorem normalized_reload_xyz (it8 target : CdIt8Private) (file : GFile) :
  is_ti1_ti3 (kind it8) = true →
  normalized it8 = true →
  (Z.of_nat (List.length (array_rgb it8)) < 4294967296)%Z →
  cd_it8_save it8 = Ok file →
  ∃ loaded,
    cd_it8_load target file = (loaded, Ok tt)
    ∧ List.length (array_xyz loaded) = List.length (array_rgb it8)
    ∧ ∀ j xyz, (j < List.length (array_rgb it8))%nat →
        array_xyz it8 !! j = Some (Some xyz) →
        array_xyz loaded !! j = Some (Some (reloaded_xyz it8 xyz)).
Proof.
  intros Hk Hn Hlen Hsave.
  destruct (save_normalized_ok it8 file Hk Hn Hsave) as (h & -> & Hf).
  unfold cd_it8_load, cmsIT8GetSheetType. rewrite (nf_sheet _ _ Hf).
  simpl kind. rewrite Hk. unfold cd_it8_load_ti1_ti3.
  rewrite (nf_color_rep _ _ Hf), (nf_normalized _ _ Hf), (nf_luminance _ _ Hf).
  rewrite parse_luminance_printf. unfold cmsIT8GetPropertyDbl.
  rewrite (nf_sets _ _ Hf), atof_string_of_N, nat_N_Z.
  fold (of_nat (List.length (array_rgb it8))). rewrite (to_guint_of_nat _ Hlen).
  fold (reread_luminance (white_references it8)).
  simpl. rewrite load_rows_eq. eexists. split; [reflexivity|].
  cbn [array_xyz cd_it8_set_reference cd_it8_set_originator cd_it8_set_instrument
       cd_it8_set_spectral cd_it8_set_kind cd_it8_set_matrix clear_arrays app].
  split; [by rewrite length_map, length_seq|].
  intros j xyz Hj Hxyz.
  change (map ?f ?x) with (f <$> x). rewrite list_lookup_fmap, lookup_seq_lt by done.
  simpl. do 2 f_equal.
  destruct (nf_rows _ _ Hf j Hj) as (rgb & xyz' & _ & Hxyz' & Hrow).
  assert (xyz' = xyz) as -> by congruence.
  destruct Hrow as [_ _ _ _ HX HY HZ].
  unfold row_xyz, reloaded_xyz, cmsIT8GetDataRowColDbl.
  rewrite HX, HY, HZ, Hn. done.
Qed.

(** ** The precision of the luminance text *)

(** The value of a decimal numeral: the digits after the first count for
    less than a unit of the first. *)
Lemma of_uint_acc_value (d : Decimal.uint) : ∀ acc,
  N.pos (Pos.of_uint_acc d acc)
  = (N.pos acc * 10 ^ N.of_nat (Decimal.nb_digits d) + Pos.of_uint d)%N.
Proof.
  induction d as [|d IHd|d IHd|d IHd|d IHd|d IHd|d IHd|d IHd|d IHd|d IHd|d IHd];
    intros acc; cbn [Pos.of_uint_acc Pos.of_uint Decimal.nb_digits];
    rewrite ?Nat2N.inj_succ, ?N.pow_succ_r', ?IHd by lia; simpl; lia.
Qed.

Lemma of_uint_bound (d : Decimal.uint) :
  (Pos.of_uint d < 10 ^ N.of_nat (Decimal.nb_digits d))%N.
Proof.
  induction d as [|d IHd|d IHd|d IHd|d IHd|d IHd|d IHd|d IHd|d IHd|d IHd|d IHd];
    cbn [Pos.of_uint Decimal.nb_digits];
    rewrite ?Nat2N.inj_succ, ?N.pow_succ_r', ?of_uint_acc_value by lia; simpl; lia.
Qed.

Lemma nzhead_not_D0 (d u : Decimal.uint) : Decimal.nzhead d ≠ Decimal.D0 u.
Proof. induction d; simpl; done. Qed.

(** The numeral of a number from 1000000 to 1999999 is a 1 and six digits,
    which are the numeral of the number less 1000000, with its zeros. *)
Lemma to_uint_seven_digits (fp : N) :
  (fp < 1000000)%N →
  ∃ u, N.to_uint (1000000 + fp) = Decimal.D1 u
       ∧ Decimal.nb_digits u = 6%nat ∧ N.of_uint u = fp.
Proof.
  intros Hfp.
  pose proof (DecimalN.Unsigned.of_to (1000000 + fp)) as Hof.
  pose proof (DecimalN.Unsigned.to_of (N.to_uint (1000000 + fp))) as Hto.
  rewrite Hof in Hto. revert Hof Hto. generalize (N.to_uint (1000000 + fp)) as d.
  intros d Hof Hnorm. unfold N.of_uint in *.
  assert (Hval : ∀ (u : Decimal.uint) (k : positive),
    (N.pos k < 10)%N → N.pos (Pos.of_uint_acc u k) = (1000000 + fp)%N →
    k = 1%positive ∧ Decimal.nb_digits u = 6%nat ∧ Pos.of_uint u = fp).
  { intros u k Hk Hu. rewrite of_uint_acc_value in Hu.
    pose proof (of_uint_bound u) as Hb.
    destruct (Decimal.nb_digits u) as [|[|[|[|[|[|[|m]]]]]]]; simpl in Hu, Hb; try lia.
    exfalso. revert Hu Hb. rewrite !Nat2N.inj_succ, !N.pow_succ_r' by lia.
    generalize (10 ^ N.of_nat m)%N. intros p Hu Hb.
    assert (0 < p)%N by lia. lia. }
  destruct d as [|u|u|u|u|u|u|u|u|u|u]; cbn [Pos.of_uint] in Hof.
  - lia.
  - exfalso. revert Hnorm. unfold Decimal.unorm. simpl Decimal.nzhead.
    destruct (Decimal.nzhead u) eqn:Hz; intros Hnorm; try discriminate Hnorm.
    + injection Hnorm as Hu. subst u. simpl in Hof. lia.
    + by eapply nzhead_not_D0.
  - destruct (Hval u 1%positive) as (_ & Hn & Hu); [lia|done|]. eauto.
  - destruct (Hval u 2%positive) as (? & _); [lia|done|]. done.
  - destruct (Hval u 3%positive) as (? & _); [lia|done|]. done.
  - destruct (Hval u 4%positive) as (? & _); [lia|done|]. done.
  - destruct (Hval u 5%positive) as (? & _); [lia|done|]. done.
  - destruct (Hval u 6%positive) as (? & _); [lia|done|]. done.
  - destruct (Hval u 7%positive) as (? & _); [lia|done|]. done.
  - destruct (Hval u 8%positive) as (? & _); [lia|done|]. done.
  - destruct (Hval u 9%positive) as (? & _); [lia|done|]. done.
Qed.

Lemma to_uint_not_nil (n : N) : N.to_uint n ≠ Decimal.Nil.
Proof.
  intros H. pose proof (DecimalN.Unsigned.of_to n) as Hof. rewrite H in Hof.
  simpl in Hof. subst n. discriminate H.
Qed.

Lemma take_digits_before_point (d : Decimal.uint) (t : string) :
  take_digits (NilEmpty.string_of_uint d ++ "." ++ t)%string = (d, ("." ++ t)%string).
Proof. induction d; simpl; rewrite ?IHd; done. Qed.

(** [atof] on a text of the form that "%f" prints: an optional minus, the
    digits of the integer part, a point, the digits of the fraction. *)
Lemma atof_fixed_point (neg : bool) (ip fp : Decimal.uint) :
  ip ≠ Decimal.Nil →
  atof ((if neg then "-" else "") ++ NilEmpty.string_of_uint ip ++ "."
        ++ NilEmpty.string_of_uint fp)%string
  = let v := scale10 (Z.of_N (N.of_uint ip) * 10 ^ Z.of_nat (Decimal.nb_digits fp)
                      + Z.of_N (N.of_uint fp))
               (0 - Z.of_nat (Decimal.nb_digits fp)) in
    Q2Qc (if neg then Qopp v else v).
Proof.
  intros Hip. unfold atof.
  assert (Hhead : take_sign (skip_spaces
            ((if neg then "-" else "") ++ NilEmpty.string_of_uint ip ++ "."
             ++ NilEmpty.string_of_uint fp)%string)
          = (neg, (NilEmpty.string_of_uint ip ++ "." ++ NilEmpty.string_of_uint fp)%string)).
  { destruct neg; [reflexivity|]. destruct ip; done. }
  rewrite Hhead, take_digits_before_point.
  change ("." ++ NilEmpty.string_of_uint fp)%string
    with (String "." (NilEmpty.string_of_uint fp)).
  cbv iota beta. rewrite take_digits_string_of_uint. cbn [take_exponent].
  destruct ip; done.
Qed.

(** Rounding to the nearest integer moves a non-negative number by a half
    at most, and not below zero. *)
Lemma round_half_even_close (q : Q) :
  (0 <= q)%Q →
  (0 <= round_half_even q)%Z
  ∧ (inject_Z (round_half_even q) - (1 # 2) <= q)%Q
  ∧ (q <= inject_Z (round_half_even q) + (1 # 2))%Q.
Proof.
  intros Hq. unfold round_half_even.
  pose proof (Qfloor_le q) as Hlo. pose proof (Qlt_floor q) as Hhi.
  assert (Hf : (0 <= Qfloor q)%Z).
  { rewrite <- (Qfloor_Z 0). by apply Qfloor_resp_le. }
  rewrite inject_Z_plus in Hhi. change (inject_Z 1) with 1%Q in Hhi.
  assert (Hf1 : inject_Z (Qfloor q + 1) = (inject_Z (Qfloor q) + 1)%Q)
    by apply inject_Z_plus.
  destruct (Qcompare (q - inject_Z (Qfloor q)) (1 # 2)) eqn:Hc.
  - apply Qeq_alt in Hc. destruct (Z.even (Qfloor q)).
    + split; [done|]. split; lra.
    + split; [lia|]. rewrite Hf1. split; lra.
  - apply Qlt_alt in Hc. split; [done|]. split; lra.
  - apply Qgt_alt in Hc. split; [lia|]. rewrite Hf1. split; lra.
Qed.

(** A number that is printed with "%f" and read with [atof] comes back
    within half a millionth. *)
Lemma atof_printf_f_close (v : gdouble) :
  - half_millionth <= atof (printf_f v) - v
  ∧ atof (printf_f v) - v <= half_millionth.
Proof.
  unfold printf_f.
  set (q := (Qabs (this v) * inject_Z 1000000)%Q).
  assert (Hq : (0 <= q)%Q).
  { unfold q. apply Qmult_le_0_compat; [apply Qabs_nonneg | done]. }
  destruct (round_half_even_close q Hq) as (Hr0 & Hrlo & Hrhi).
  set (n := Z.to_N (round_half_even q)).
  destruct (to_uint_seven_digits (n mod 1000000)) as (u & Hu & Hnb & Hval).
  { by apply N.mod_lt. }
  unfold string_of_N. rewrite Hu. cbn [NilEmpty.string_of_uint string_tail].
  rewrite atof_fixed_point by apply to_uint_not_nil.
  rewrite Hnb, Hval, DecimalN.Unsigned.of_to. cbv zeta.
  replace (Z.of_N (n / 1000000) * 10 ^ Z.of_nat 6 + Z.of_N (n mod 1000000))%Z
    with (round_half_even q).
  2:{ rewrite <- (Z2N.id (round_half_even q)) at 1 by done. fold n.
      rewrite (N.div_mod n 1000000) at 1 by done. lia. }
  change (scale10 (round_half_even q) (0 - Z.of_nat 6))
    with (round_half_even q # 1000000).
  assert (Hmk : (round_half_even q # 1000000 == inject_Z (round_half_even q) * (1 # 1000000))%Q).
  { unfold Qeq. simpl. lia. }
  revert Hrlo Hrhi Hmk. generalize (inject_Z (round_half_even q)) as r.
  generalize (round_half_even q # 1000000) as w. intros w r Hrlo Hrhi Hmk.
  unfold q in Hrlo, Hrhi. clear q Hq n Hr0 Hu Hval.
  destruct (ltb v zero) eqn:Hneg; [apply ltb_lt in Hneg | apply ltb_ge in Hneg].
  - assert (Habs : (Qabs (this v) == - this v)%Q).
    { apply Qabs_neg. revert Hneg. qc_to_q. lra. }
    rewrite Habs in Hrlo, Hrhi. unfold half_millionth. qc_to_q.
    rewrite Hmk. split; lra.
  - assert (Habs : (Qabs (this v) == this v)%Q).
    { apply Qabs_pos. revert Hneg. qc_to_q. lra. }
    rewrite Habs in Hrlo, Hrhi. unfold half_millionth. qc_to_q.
    rewrite Hmk. split; lra.
Qed.

(** The luminance that the saver prints with "%f %f %f" is accepted by
    [cd_it8_parse_luminance], and each channel is read back within half a
    millionth of the number that was printed. *)
Theorem luminance_text_round_trip (x y z : gdouble) :
  ∃ l, cd_it8_parse_luminance (Some (printf_f3 x y z)) = Ok l
       ∧ within_half_millionth (xyz_X l) x
       ∧ within_half_millionth (xyz_Y l) y
       ∧ within_half_millionth (xyz_Z l) z.
Proof.
  rewrite parse_luminance_printf. eexists. split; [reflexivity|].
  repeat split; apply atof_printf_f_close.
Qed.

(** ** More on the normalized save *)

(** What the saver does with a normalized calibration target whose samples
    all have an XYZ colour.  Without a sample that is white for
    [cd_it8_color_match] it fails with the error of the missing white.  With
    one, if no white Y is above zero, 100 is divided by zero.  Otherwise the
    file is written when the last sample of the document is white, and when
    it is not the saver returns FALSE and sets no error. *)
Theorem normalized_save_outcome (it8 : CdIt8Private) :
  is_ti1_ti3 (kind it8) = true →
  normalized it8 = true →
  all_xyz_present it8 →
  (white_references it8 = [] → cd_it8_save it8 = Fail (Some NoWhiteSamples))
  ∧ (white_references it8 ≠ [] → running_max zero (white_references it8) = zero →
     cd_it8_save it8 = Wrong NonFinite)
  ∧ (white_references it8 ≠ [] → running_max zero (white_references it8) ≠ zero →
     last_match (array_rgb it8) true = true → ∃ file, cd_it8_save it8 = Ok file)
  ∧ (white_references it8 ≠ [] → running_max zero (white_references it8) ≠ zero →
     last_match (array_rgb it8) true = false → cd_it8_save it8 = Fail None).
Proof.
  intros Hk Hn Hall.
  assert (Hhead : ∃ st, scan_white it8 0 (List.length (array_rgb it8)) scan_start = Ok st
            ∧ luminance_samples st = List.length (white_references it8)
            ∧ normalize st = running_max zero (white_references it8)).
  { destruct (scan_white_total it8 (List.length (array_rgb it8)) 0 scan_start)
      as [st Hscan]; [done..|].
    exists st. split; [done|]. apply scan_white_spec in Hscan; [|done].
    rewrite !drop_0 in Hscan. simpl in Hscan.
    by destruct Hscan as (Hcount & _ & _ & _ & Hrun & _). }
  destruct Hhead as (st & Hscan & Hcount & Hrun).
  split; [|split; [|split]].
  - intros Hws. unfold cd_it8_save. rewrite Hk. unfold cd_it8_save_ti1_ti3.
    rewrite Hn, Hscan. cbn [mbind result_bind].
    rewrite (bool_decide_eq_true_2 (luminance_samples st = 0%nat)); [done|].
    by rewrite Hcount, Hws.
  - intros Hws Hmax. unfold cd_it8_save. rewrite Hk. unfold cd_it8_save_ti1_ti3.
    rewrite Hn, Hscan. cbn [mbind result_bind].
    rewrite (bool_decide_eq_false_2 (luminance_samples st = 0%nat)).
    2:{ rewrite Hcount. by destruct (white_references it8). }
    rewrite Hrun, Hmax. done.
  - intros Hws Hmax Hlast.
    pose proof (save_normalized_result it8 Hk Hn Hall Hws Hmax) as H.
    by rewrite Hlast in H.
  - intros Hws Hmax Hlast.
    pose proof (save_normalized_result it8 Hk Hn Hall Hws Hmax) as H.
    by rewrite Hlast in H.
Qed.


(** ** Documents that can be saved *)


(** ** The further properties at concrete inputs *)

Lemma plain_two_samples_present : all_xyz_present plain_two_samples.
Proof. by eapply two_samples_present. Qed.

Lemma plain_round_trip_witness :
  (is_ti1_ti3 (kind plain_two_samples) = true
   ∧ normalized plain_two_samples = false
   ∧ aligned plain_two_samples
   ∧ all_xyz_present plain_two_samples
   ∧ (Z.of_nat (List.length (array_rgb plain_two_samples)) < 4294967296)%Z)
  ∧ ∃ file loaded,
      cd_it8_save plain_two_samples = Ok file
      ∧ cd_it8_load cd_it8_new file = (loaded, Ok tt)
      ∧ kind loaded = kind plain_two_samples
      ∧ spectral loaded = spectral plain_two_samples
      ∧ array_rgb loaded = array_rgb plain_two_samples
      ∧ array_xyz loaded = array_xyz plain_two_samples.
Proof.
  split.
  - split; [reflexivity|]. split; [reflexivity|]. split; [reflexivity|].
    split; [apply plain_two_samples_present | reflexivity].
  - apply (plain_round_trip plain_two_samples cd_it8_new);
      [reflexivity | reflexivity | reflexivity | apply plain_two_samples_present
      | reflexivity].
Defined.

Lemma plain_save_outcome_witness :
  (is_ti1_ti3 (kind plain_two_samples) = true
   ∧ normalized plain_two_samples = false
   ∧ aligned plain_two_samples)
  ∧ (∀ e, cd_it8_save plain_two_samples ≠ Fail e)
  ∧ (all_xyz_present plain_two_samples → ∃ file, cd_it8_save plain_two_samples = Ok file)
  ∧ ((∃ j, array_xyz plain_two_samples !! j = Some None) →
     cd_it8_save plain_two_samples = Wrong NullPointer).
Proof.
  split.
  - split; [reflexivity|]. split; reflexivity.
  - apply (plain_save_outcome plain_two_samples); reflexivity.
Defined.

Lemma save_target_rows_witness :
  ∃ h,
    (is_ti1_ti3 (kind scenario_white_last) = true
     ∧ cd_it8_save scenario_white_last = Ok (It8Text h))
    ∧ cmsIT8GetProperty h "NUMBER_OF_FIELDS" = Some "7"
    ∧ cmsIT8GetPropertyDbl h "NUMBER_OF_SETS"
      = of_nat (List.length (array_rgb scenario_white_last))
    ∧ ∀ j rgb, array_rgb scenario_white_last !! j = Some rgb →
        cmsIT8GetDataRowColDbl h j 0 = of_nat (j + 1)
        ∧ cmsIT8GetDataRowColDbl h j 1 = rgb_R rgb
        ∧ cmsIT8GetDataRowColDbl h j 2 = rgb_G rgb
        ∧ cmsIT8GetDataRowColDbl h j 3 = rgb_B rgb.
Proof.
  assert (Hsave : ∃ h, cd_it8_save scenario_white_last = Ok (It8Text h)).
  { eexists. vm_compute. reflexivity. }
  destruct Hsave as [h Hsave]. exists h. split.
  - split; [reflexivity | exact Hsave].
  - apply (save_target_rows scenario_white_last h); [reflexivity | exact Hsave].
Defined.

Lemma normalized_save_outcome_witness :
  (is_ti1_ti3 (kind scenario_white_first) = true
   ∧ normalized scenario_white_first = true
   ∧ all_xyz_present scenario_white_first)
  ∧ (white_references scenario_white_first ≠ [] →
     running_max zero (white_references scenario_white_first) ≠ zero →
     last_match (array_rgb scenario_white_first) true = false →
     cd_it8_save scenario_white_first = Fail None).
Proof.
  split.
  - split; [reflexivity|]. split; [reflexivity | apply scenario_white_first_present].
  - apply (normalized_save_outcome scenario_white_first);
      [reflexivity | reflexivity | apply scenario_white_first_present].
Defined.

Lemma normalized_reload_xyz_witness :
  ∃ file,
    (is_ti1_ti3 (kind scenario_white_last) = true
     ∧ normalized scenario_white_last = true
     ∧ (Z.of_nat (List.length (array_rgb scenario_white_last)) < 4294967296)%Z
     ∧ cd_it8_save scenario_white_last = Ok file)
    ∧ ∃ loaded,
        cd_it8_load cd_it8_new file = (loaded, Ok tt)
        ∧ List.length (array_xyz loaded) = List.length (array_rgb scenario_white_last)
        ∧ ∀ j xyz, (j < List.length (array_rgb scenario_white_last))%nat →
            array_xyz scenario_white_last !! j = Some (Some xyz) →
            array_xyz loaded !! j = Some (Some (reloaded_xyz scenario_white_last xyz)).
Proof.
  assert (Hsave : ∃ file, cd_it8_save scenario_white_last = Ok file).
  { eexists. vm_compute. reflexivity. }
  destruct Hsave as [file Hsave]. exists file. split.
  - split; [reflexivity|]. split; [reflexivity|]. split; [reflexivity | exact Hsave].
  - apply (normalized_reload_xyz scenario_white_last cd_it8_new file);
      [reflexivity | reflexivity | reflexivity | exact Hsave].
Defined.

Lemma load_ok_single_payload_witness :
  cd_it8_load scenario_white_last (It8Text empty_ccmx)
  = ((cd_it8_load scenario_white_last (It8Text empty_ccmx)).1, Ok tt)
  ∧ ((kind (cd_it8_load scenario_white_last (It8Text empty_ccmx)).1 = CD_IT8_KIND_CCMX
      ∧ array_rgb (cd_it8_load scenario_white_last (It8Text empty_ccmx)).1 = []
      ∧ array_xyz (cd_it8_load scenario_white_last (It8Text empty_ccmx)).1 = [])
     ∨ (is_ti1_ti3 (kind (cd_it8_load scenario_white_last (It8Text empty_ccmx)).1) = true
        ∧ matrix (cd_it8_load scenario_white_last (It8Text empty_ccmx)).1
          = cd_mat33_clear)).
Proof.
  split; [reflexivity|].
  apply (load_ok_single_payload scenario_white_last _ (It8Text empty_ccmx)).
  reflexivity.
Defined.

Lemma load_ok_sample_count_witness :
  (cd_it8_load cd_it8_new (It8Text two_empty_rows)
   = ((cd_it8_load cd_it8_new (It8Text two_empty_rows)).1, Ok tt)
   ∧ is_ti1_ti3 (kind (cd_it8_load cd_it8_new (It8Text two_empty_rows)).1) = true)
  ∧ to_guint (cmsIT8GetPropertyDbl two_empty_rows "NUMBER_OF_SETS")
    = Some (cd_it8_get_data_size (cd_it8_load cd_it8_new (It8Text two_empty_rows)).1)
  ∧ List.length (array_rgb (cd_it8_load cd_it8_new (It8Text two_empty_rows)).1)
    = cd_it8_get_data_size (cd_it8_load cd_it8_new (It8Text two_empty_rows)).1
  ∧ (∀ j, (j < cd_it8_get_data_size
                  (cd_it8_load cd_it8_new (It8Text two_empty_rows)).1)%nat →
       ∃ xyz, array_xyz (cd_it8_load cd_it8_new (It8Text two_empty_rows)).1 !! j
              = Some (Some xyz)).
Proof.
  split; [split; reflexivity|].
  apply (load_ok_sample_count cd_it8_new _ two_empty_rows); reflexivity.
Defined.

Lemma load_ok_metadata_witness :
  cd_it8_load scenario_white_last (It8Text two_empty_rows)
  = ((cd_it8_load scenario_white_last (It8Text two_empty_rows)).1, Ok tt)
  ∧ originator (cd_it8_load scenario_white_last (It8Text two_empty_rows)).1
    = cmsIT8GetProperty two_empty_rows "ORIGINATOR"
  ∧ reference (cd_it8_load scenario_white_last (It8Text two_empty_rows)).1
    = cmsIT8GetProperty two_empty_rows "REFERENCE"
  ∧ (is_ti1_ti3 (kind (cd_it8_load scenario_white_last (It8Text two_empty_rows)).1)
     = true →
     instrument (cd_it8_load scenario_white_last (It8Text two_empty_rows)).1
     = cmsIT8GetProperty two_empty_rows "TARGET_INSTRUMENT"
     ∧ spectral (cd_it8_load scenario_white_last (It8Text two_empty_rows)).1
       = bool_decide
           (cmsIT8GetProperty two_empty_rows "INSTRUMENT_TYPE_SPECTRAL" = Some "YES"))
  ∧ (kind (cd_it8_load scenario_white_last (It8Text two_empty_rows)).1
     = CD_IT8_KIND_CCMX →
     instrument (cd_it8_load scenario_white_last (It8Text two_empty_rows)).1
     = cmsIT8GetProperty two_empty_rows "INSTRUMENT"
     ∧ spectral (cd_it8_load scenario_white_last (It8Text two_empty_rows)).1
       = spectral scenario_white_last).
Proof.
  split; [reflexivity|].
  apply (load_ok_metadata scenario_white_last _ two_empty_rows). reflexivity.
Defined.

Lemma load_color_rep_witness :
  kind_of_sheet_type (SheetType bare_cti3) = Some CD_IT8_KIND_TI3
  ∧ (cd_it8_load cd_it8_new (It8Text bare_cti3)).2
    = Fail (Some (InvalidDataFormat None)).
Proof.
  split; [reflexivity|].
  apply (load_color_rep cd_it8_new bare_cti3 CD_IT8_KIND_TI3);
    [reflexivity | reflexivity | discriminate].
Defined.

Lemma load_ccmx_without_cells_witness :
  (kind_of_sheet_type (SheetType empty_ccmx) = Some CD_IT8_KIND_CCMX
   ∧ cmsIT8GetProperty empty_ccmx "COLOR_REP" = Some "XYZ"
   ∧ Data empty_ccmx = ∅)
  ∧ (cd_it8_load some_ccmx (It8Text empty_ccmx)).2 = Ok tt
  ∧ matrix (cd_it8_load some_ccmx (It8Text empty_ccmx)).1 = cd_mat33_clear.
Proof.
  split; [split; [reflexivity | split; reflexivity]|].
  apply (load_ccmx_without_cells some_ccmx empty_ccmx); reflexivity.
Defined.

Lemma unknown_kind_saved_not_loaded_witness :
  kind cd_it8_new = CD_IT8_KIND_UNKNOWN
  ∧ ∃ h, cd_it8_save cd_it8_new = Ok (It8Text h)
         ∧ SheetType h = "CGATS.17"
         ∧ (cd_it8_load cd_it8_new (It8Text h)).2
           = Fail (Some (InvalidSheetType "CGATS.17"))
         ∧ error_kind (InvalidSheetType "CGATS.17") = UnknownVariant.
Proof.
  split; [reflexivity|].
  apply (unknown_kind_saved_not_loaded cd_it8_new cd_it8_new). reflexivity.
Defined.

Lemma get_added_sample_witness :
  aligned scenario_white_last
  ∧ cd_it8_get_data_item (cd_it8_add_data scenario_white_last
                            (Some white_rgb) (Some white_xyz))
      (cd_it8_get_data_size scenario_white_last) true true
    = Ok (Some white_rgb, Some white_xyz)
  ∧ ∀ idx want_rgb want_xyz, (idx < cd_it8_get_data_size scenario_white_last)%nat →
      cd_it8_get_data_item (cd_it8_add_data scenario_white_last
                              (Some white_rgb) (Some white_xyz))
        idx want_rgb want_xyz
      = cd_it8_get_data_item scenario_white_last idx want_rgb want_xyz.
Proof.
  split; [reflexivity|].
  apply (get_added_sample scenario_white_last white_rgb white_xyz). reflexivity.
Defined.

Lemma get_data_item_in_range_witness :
  (aligned scenario_white_last ∧ (1 < cd_it8_get_data_size scenario_white_last)%nat)
  ∧ ∃ rgb oxyz, array_rgb scenario_white_last !! 1%nat = Some rgb
                ∧ array_xyz scenario_white_last !! 1%nat = Some oxyz
                ∧ cd_it8_get_data_item scenario_white_last 1 true true
                  = Ok (Some rgb, oxyz).
Proof.
  split; [split; [reflexivity | vm_compute; lia]|].
  apply (get_data_item_in_range scenario_white_last 1);
    [reflexivity | vm_compute; lia].
Defined.


